(** * NeuralManager (train/classes/cls_nnetwork.py): a shallow embedding

    The Python class [NeuralManager] glues pandas tables, a scikit-learn
    scaler, a Keras [Sequential] model and a matplotlib surface together.
    The embedding keeps the class's own logic (index arithmetic of the
    windowing loop, default merging of dictionaries, the control flow of
    [model_combine] and [model_fit], name resolution of the chart helper)
    and takes the numerical libraries as collaborators: what they compute
    is a field of the record [Library], every call to them is logged.
    The CSV loader of [__init__] works on the file system and is not part
    of the embedding: an instance starts from whatever tables it holds. *)

From stdpp Require Import gmap strings list fin_maps.
From Stdlib Require Import ZArith Lia.

Set Warnings "-register-all".

Local Open Scope Z_scope.
Local Open Scope nat_scope.

(** ** Python outcomes: a value or a raised exception *)

Inductive exn : Type :=
  | TypeError
  | ValueError
  | AttributeError
  | NameError
  | UnboundLocalError
  | KeyError
  | IndexError
  | LibraryError (origin : string).

Inductive outcome (A : Type) : Type :=
  | Ret (a : A)
  | Raise (e : exn).
Arguments Ret {A} a.
Arguments Raise {A} e.

Definition is_raise {A} (o : outcome A) : Prop :=
  match o with Ret _ => False | Raise _ => True end.

#[global] Instance outcome_ret : MRet outcome := @Ret.
#[global] Instance outcome_bind : MBind outcome := λ A B f o,
  match o with
  | Ret a => f a
  | Raise e => Raise e
  end.

(** Statements run in a store [S]; what was written before an exception
    stays written, as in Python. *)
Definition M (S A : Type) : Type := S → outcome A * S.

#[global] Instance M_ret {S} : MRet (M S) := λ A a s, (Ret a, s).
#[global] Instance M_bind {S} : MBind (M S) := λ A B f m s,
  match m s with
  | (Ret a, s') => f a s'
  | (Raise e, s') => (Raise e, s')
  end.

Definition raise {S A} (e : exn) : M S A := λ s, (Raise e, s).
Definition lift {S A} (o : outcome A) : M S A := λ s, (o, s).
Definition get {S} : M S S := λ s, (Ret s, s).
Definition modify {S} (f : S → S) : M S unit := λ s, (Ret tt, f s).

(** [for x in xs: acc = body acc x], stopping at the first exception. *)
Fixpoint for_each {S A B} (body : B → A → M S B) (acc : B) (xs : list A) : M S B :=
  match xs with
  | [] => mret acc
  | x :: xs' => acc' ← body acc x; for_each body acc' xs'
  end.

(** ** NumPy arrays: a shape and the elements in row-major order *)

Record ndarray (A : Type) : Type := NdArray {
  nd_shape : list nat;
  nd_data : list A;
}.
Arguments NdArray {A} nd_shape nd_data.
Arguments nd_shape {A} _.
Arguments nd_data {A} _.

Definition nd_size (shape : list nat) : nat := foldr Nat.mul 1 shape.

Definition nd_wf {A} (a : ndarray A) : Prop :=
  length (nd_data a) = nd_size (nd_shape a).

#[global] Instance nd_wf_dec {A} (a : ndarray A) : Decision (nd_wf a).
Proof. unfold nd_wf. apply _. Defined.

Section numpy.
Context {A : Type}.

(** [len(a)]: the first axis; a 0-d array is unsized. *)
Definition np_len (a : ndarray A) : outcome nat :=
  match nd_shape a with
  | [] => Raise TypeError
  | n :: _ => Ret n
  end.

(** [a.shape[i]] *)
Definition np_shape_at (a : ndarray A) (i : nat) : outcome nat :=
  match nd_shape a !! i with
  | Some n => Ret n
  | None => Raise IndexError
  end.

(** A slice bound of Python: negative bounds count from the end, then
    the bound is clipped to [0, len]. *)
Definition py_clamp (len : nat) (i : Z) : nat :=
  if (i <? 0)%Z then Z.to_nat (i + Z.of_nat len)
  else Nat.min (Z.to_nat i) len.

(** [a[start:stop]] on the first axis. *)
Definition np_slice0 (a : ndarray A) (start stop : Z) : outcome (ndarray A) :=
  match nd_shape a with
  | [] => Raise IndexError
  | n :: rest =>
      let lo := py_clamp n start in
      let hi := py_clamp n stop in
      let stride := nd_size rest in
      Ret (NdArray ((hi - lo) :: rest)
             (take ((hi - lo) * stride) (drop (lo * stride) (nd_data a))))
  end.

(** [a[i]] for [0 <= i] on the first axis. *)
Definition np_index0 (a : ndarray A) (i : nat) : outcome (ndarray A) :=
  match nd_shape a with
  | [] => Raise IndexError
  | n :: rest =>
      if decide (i < n)
      then Ret (NdArray rest
                  (take (nd_size rest) (drop (i * nd_size rest) (nd_data a))))
      else Raise IndexError
  end.

(** [np.asarray(l)] for a Python list of arrays: equal shapes are
    stacked on a new first axis, the empty list is the empty 1-d array;
    arrays of different shapes are refused (NumPy 1.24 and later). *)
Definition np_asarray (l : list (ndarray A)) : outcome (ndarray A) :=
  match l with
  | [] => Ret (NdArray [0] [])
  | a :: _ =>
      if decide (Forall (λ b, nd_shape b = nd_shape a) l)
      then Ret (NdArray (length l :: nd_shape a) (concat (nd_data <$> l)))
      else Raise ValueError
  end.

(** [a.reshape(d0, d1, ...)] with non-negative dimensions: the element
    count has to agree ([-1] placeholders are not used by the class). *)
Definition np_reshape (a : ndarray A) (newshape : list nat) : outcome (ndarray A) :=
  if decide (nd_size newshape = nd_size (nd_shape a))
  then Ret (NdArray newshape (nd_data a))
  else Raise ValueError.

(** [np.array(l)] for a Python list of numbers. *)
Definition np_array1 (l : list A) : ndarray A := NdArray [length l] l.

(** Rows [i, i+L) of a table, as the specification words it. *)
Definition rows_between (a : ndarray A) (i L : nat) : ndarray A :=
  NdArray (L :: tail (nd_shape a))
    (take (L * nd_size (tail (nd_shape a)))
       (drop (i * nd_size (tail (nd_shape a))) (nd_data a))).

(** The windows of [L] rows starting at rows [0 .. count-1]. *)
Definition windows_of (a : ndarray A) (L count : nat) : list (ndarray A) :=
  (λ i, rows_between a i L) <$> seq 0 count.

(** Arrays of shape [s] laid one after the other on a new first axis. *)
Definition stacked (l : list (ndarray A)) (s : list nat) : ndarray A :=
  NdArray (length l :: s) (concat (nd_data <$> l)).
End numpy.

(** [range(n)] *)
Definition py_range (n : Z) : list Z := Z.of_nat <$> seq 0 (Z.to_nat n).

(** ** Python values of configuration dictionaries *)

Inductive pyval : Type :=
  | VNone
  | VBool (b : bool)
  | VStr (s : string)
  | VList (l : list pyval).

(** ** The instance, its collaborators and the interpreter state *)

Section manager.
Context {elt layer params : Type}.

Local Abbreviation table := (ndarray elt).

(** A scaler class of scikit-learn's interface: [fit] computes the
    parameters from a table, applying them reads the parameters only.
    The argument is the Python value handed over, [None] included. *)
Record ScalerClass : Type := {
  sc_fit : option table → outcome params;
  sc_apply : params → option table → outcome table;
}.

Record Scaler : Type := {
  scaler_class : ScalerClass;
  fitted : option params;
}.

Record Sequential : Type := {
  layers : list layer;
  compiled : option (gmap string pyval);
}.

Record fit_args : Type := {
  fit_x : table;
  fit_y : table;
  fit_epochs : Z;
  fit_batch_size : Z;
  fit_validation_data : table * table;
  fit_verbose : Z;
}.

(** Values of an [ax_properties] bundle. *)
Inductive propval : Type :=
  | PNone
  | PStr (s : string)
  | PNum (x : elt)
  | PSeries (a : table).

(** What the wrapped libraries answer; [Raise] is a fault of theirs. *)
Record Library : Type := {
  StandardScaler : ScalerClass;
  keras_add : list layer → layer → outcome unit;
  keras_compile : list layer → gmap string pyval → outcome unit;
  keras_summary : Sequential → outcome unit;
  keras_fit : Sequential → fit_args → outcome (gmap string (list elt));
  float_5e_4 : elt;
  elt_add : elt → elt → elt;
  format_4f : elt → string;
}.

(** Calls made to the libraries, in order. *)
Inductive event : Type :=
  | CallFitTransform (X : option table)
  | CallTransform (X : option table)
  | CallSequential
  | CallAdd (l : layer)
  | CallCompile (kwargs : gmap string pyval)
  | CallSummary
  | CallFit (args : fit_args)
  | CallSubplots.

(** A matplotlib surface, as far as the class touches it. *)
Record Axes : Type := {
  ax_lines : list (table * string * string);
  ax_legend_loc : option Z;
  ax_spine_right_visible : bool;
  ax_spine_top_visible : bool;
  ax_grid : option (bool * string);
  ax_texts : list (nat * elt * string * string);
  ax_ylim : option propval;
  ax_title : option (propval * string);
  ax_xlabel : option propval;
  ax_ylabel : option propval;
}.

Definition new_axes : Axes :=
  {| ax_lines := []; ax_legend_loc := None;
     ax_spine_right_visible := true; ax_spine_top_visible := true;
     ax_grid := None; ax_texts := []; ax_ylim := None; ax_title := None;
     ax_xlabel := None; ax_ylabel := None |}.

(** The attributes of [self]. A table attribute holds [None] until it
    is loaded; [y_train_unrolled] and [y_test_unrolled] are not created
    by [__init__], [None] stands for the missing attribute there. *)
Record NeuralManager : Type := {
  X_train : option table;
  X_test : option table;
  y_train : option table;
  y_test : option table;
  X_train_normalized : option table;
  X_test_normalized : option table;
  X_train_unrolled : option table;
  X_test_unrolled : option table;
  y_train_unrolled : option table;
  y_test_unrolled : option table;
  model : option Sequential;
  scaler : option Scaler;
}.

Record world : Type := {
  self : NeuralManager;
  stdout : list string;
  calls : list event;
  figures : list Axes;
}.

Definition print (line : string) : M world unit :=
  modify (λ w, {| self := self w; stdout := stdout w ++ [line];
                  calls := calls w; figures := figures w |}).

Definition log (e : event) : M world unit :=
  modify (λ w, {| self := self w; stdout := stdout w;
                  calls := calls w ++ [e]; figures := figures w |}).

Definition modify_self (f : NeuralManager → NeuralManager) : M world unit :=
  modify (λ w, {| self := f (self w); stdout := stdout w;
                  calls := calls w; figures := figures w |}).

Definition get_self : M world NeuralManager := w ← get; mret (self w).

Definition set_scaler (v : option Scaler) (s : NeuralManager) : NeuralManager :=
  {| X_train := X_train s; X_test := X_test s; y_train := y_train s;
     y_test := y_test s; X_train_normalized := X_train_normalized s;
     X_test_normalized := X_test_normalized s;
     X_train_unrolled := X_train_unrolled s;
     X_test_unrolled := X_test_unrolled s;
     y_train_unrolled := y_train_unrolled s;
     y_test_unrolled := y_test_unrolled s;
     model := model s; scaler := v |}.

Definition set_model (v : option Sequential) (s : NeuralManager) : NeuralManager :=
  {| X_train := X_train s; X_test := X_test s; y_train := y_train s;
     y_test := y_test s; X_train_normalized := X_train_normalized s;
     X_test_normalized := X_test_normalized s;
     X_train_unrolled := X_train_unrolled s;
     X_test_unrolled := X_test_unrolled s;
     y_train_unrolled := y_train_unrolled s;
     y_test_unrolled := y_test_unrolled s;
     model := v; scaler := scaler s |}.

Definition set_X_train_normalized (v : option table) (s : NeuralManager)
  : NeuralManager :=
  {| X_train := X_train s; X_test := X_test s; y_train := y_train s;
     y_test := y_test s; X_train_normalized := v;
     X_test_normalized := X_test_normalized s;
     X_train_unrolled := X_train_unrolled s;
     X_test_unrolled := X_test_unrolled s;
     y_train_unrolled := y_train_unrolled s;
     y_test_unrolled := y_test_unrolled s;
     model := model s; scaler := scaler s |}.

Definition set_X_test_normalized (v : option table) (s : NeuralManager)
  : NeuralManager :=
  {| X_train := X_train s; X_test := X_test s; y_train := y_train s;
     y_test := y_test s; X_train_normalized := X_train_normalized s;
     X_test_normalized := v;
     X_train_unrolled := X_train_unrolled s;
     X_test_unrolled := X_test_unrolled s;
     y_train_unrolled := y_train_unrolled s;
     y_test_unrolled := y_test_unrolled s;
     model := model s; scaler := scaler s |}.

Definition set_train_unrolled (vx vy : table) (s : NeuralManager)
  : NeuralManager :=
  {| X_train := X_train s; X_test := X_test s; y_train := y_train s;
     y_test := y_test s; X_train_normalized := X_train_normalized s;
     X_test_normalized := X_test_normalized s;
     X_train_unrolled := Some vx;
     X_test_unrolled := X_test_unrolled s;
     y_train_unrolled := Some vy;
     y_test_unrolled := y_test_unrolled s;
     model := model s; scaler := scaler s |}.

Definition set_test_unrolled (vx vy : table) (s : NeuralManager)
  : NeuralManager :=
  {| X_train := X_train s; X_test := X_test s; y_train := y_train s;
     y_test := y_test s; X_train_normalized := X_train_normalized s;
     X_test_normalized := X_test_normalized s;
     X_train_unrolled := X_train_unrolled s;
     X_test_unrolled := Some vx;
     y_train_unrolled := y_train_unrolled s;
     y_test_unrolled := Some vy;
     model := model s; scaler := scaler s |}.

Variable lib : Library.

(** *** normalize_X *)

(** [self.scaler.fit_transform(X)] *)
Definition scaler_fit_transform (X : option table) : M world table :=
  log (CallFitTransform X);;
  s ← get_self;
  match scaler s with
  | None => raise AttributeError
  | Some sc =>
      p ← lift (sc_fit (scaler_class sc) X);
      modify_self (set_scaler
        (Some {| scaler_class := scaler_class sc; fitted := Some p |}));;
      lift (sc_apply (scaler_class sc) p X)
  end.

(** [self.scaler.transform(X)] *)
Definition scaler_transform (X : option table) : M world table :=
  log (CallTransform X);;
  s ← get_self;
  match scaler s with
  | None => raise AttributeError
  | Some sc =>
      match fitted sc with
      | None => raise (LibraryError "NotFittedError")
      | Some p => lift (sc_apply (scaler_class sc) p X)
      end
  end.

Definition normalize_X (scaler_arg : option ScalerClass) : M world bool :=
  modify_self (set_scaler
    (Some {| scaler_class := default (StandardScaler lib) scaler_arg;
             fitted := None |}));;
  s ← get_self;
  r ← scaler_fit_transform (X_train s);
  modify_self (set_X_train_normalized (Some r));;
  s ← get_self;
  r ← scaler_transform (X_test s);
  modify_self (set_X_test_normalized (Some r));;
  mret true.

(** *** _unroll_array_to_sequence and split_X_to_sequencees *)

(** What the static method hands back: [False], or the pair of arrays. *)
Inductive unrolled : Type :=
  | UnrollFalse
  | UnrollPair (set_X set_y : table).

Definition unroll_body (X y : table) (sequence_length : Z)
    (acc : list table * list table) (index : Z)
  : M world (list table * list table) :=
  wx ← lift (np_slice0 X index (index + sequence_length));
  wy ← lift (np_slice0 y index (index + sequence_length));
  mret (acc.1 ++ [wx], acc.2 ++ [wy]).

Definition _unroll_array_to_sequence (X y : table) (sequence_length : Z)
  : M world unrolled :=
  len_X ← lift (np_len X);
  len_y ← lift (np_len y);
  if decide (len_X ≠ len_y) then
    print ">>> X and y data should have same len...";;
    mret UnrollFalse
  else
    sets ← for_each (unroll_body X y sequence_length) ([], [])
              (py_range (Z.of_nat len_X - sequence_length));
    set_X ← lift (np_asarray sets.1);
    set_y ← lift (np_asarray sets.2);
    mret (UnrollPair set_X set_y).

(** [a, b = value]: [False] cannot be unpacked. *)
Definition unpack_pair (r : unrolled) : M world (table * table) :=
  match r with
  | UnrollFalse => raise TypeError
  | UnrollPair a b => mret (a, b)
  end.

(** The arguments are evaluated first ([self.y_train.values] needs a
    loaded table); a [None] for [X] makes [len(X)] in the callee raise
    [TypeError]. *)
Definition call_unroll (X y : option table) (sequence_len : Z) : M world unrolled :=
  match y with
  | None => raise AttributeError
  | Some y_values =>
      match X with
      | None => raise TypeError
      | Some X_values => _unroll_array_to_sequence X_values y_values sequence_len
      end
  end.

Definition split_X_to_sequencees (sequence_len : Z) : M world unit :=
  s ← get_self;
  r ← call_unroll (X_train_normalized s) (y_train s) sequence_len;
  '(ux, uy) ← unpack_pair r;
  modify_self (set_train_unrolled ux uy);;
  s ← get_self;
  r ← call_unroll (X_test_normalized s) (y_test s) sequence_len;
  '(ux, uy) ← unpack_pair r;
  modify_self (set_test_unrolled ux uy).

(** *** _helpers_set_dict_default *)

(** The second argument: a list of keys, a dict of defaults, or a
    value that is neither (nothing happens then). *)
Inductive keys_arg : Type :=
  | KeysList (l : list string)
  | KeysDict (d : gmap string pyval)
  | KeysOther.

(** [dictionar[key] = dictionar[key] if key in dictionar else val] *)
Definition set_default (dictionar : gmap string pyval) (key : string) (val : pyval)
  : gmap string pyval :=
  <[key := match dictionar !! key with Some old => old | None => val end]> dictionar.

(** The dict is changed in place; the embedding hands the changed dict
    back. [keys.items()] is the list of the bindings of [keys]. *)
Definition _helpers_set_dict_default (dictionar : gmap string pyval) (keys : keys_arg)
  : gmap string pyval :=
  match keys with
  | KeysList l => foldl (λ d key, set_default d key VNone) dictionar l
  | KeysDict defaults =>
      foldl (λ d item, set_default d item.1 item.2) dictionar (map_to_list defaults)
  | KeysOther => dictionar
  end.

(** *** model_combine *)

(** [self.model.add(layer)] *)
Definition model_add (l : layer) : M world unit :=
  log (CallAdd l);;
  s ← get_self;
  match model s with
  | None => raise AttributeError
  | Some m =>
      lift (keras_add lib (layers m) l);;
      modify_self (set_model
        (Some {| layers := layers m ++ [l]; compiled := compiled m |}))
  end.

(** [self.model.compile] with [compile_dict] unpacked into keyword
    arguments: unpacking [None] is a [TypeError], raised before Keras
    is entered. *)
Definition model_compile (compile_dict : option (gmap string pyval)) : M world unit :=
  match compile_dict with
  | None => raise TypeError
  | Some kwargs =>
      log (CallCompile kwargs);;
      s ← get_self;
      match model s with
      | None => raise AttributeError
      | Some m =>
          lift (keras_compile lib (layers m) kwargs);;
          modify_self (set_model
            (Some {| layers := layers m; compiled := Some kwargs |}))
      end
  end.

(** [self.model.summary()] *)
Definition model_summary : M world unit :=
  log CallSummary;;
  s ← get_self;
  match model s with
  | None => raise AttributeError
  | Some m => lift (keras_summary lib m)
  end.

Definition compile_defaults : gmap string pyval :=
  <["optimizer" := VStr "adam"]>
    (<["loss" := VStr "rmse"]> (<["metrics" := VList [VStr "mae"]]> ∅)).

(** The local [metrics] is given its default and not read again; the
    defaults dict is written out with its own [metrics] entry. *)
Definition model_combine (template : list layer) (compile_model : bool)
    (compile_dict : option (gmap string pyval)) (metrics : option (list pyval))
    (verbose : bool) : M world bool :=
  log CallSequential;;
  modify_self (set_model (Some {| layers := []; compiled := None |}));;
  for_each (λ _ l, model_add l) tt template;;
  let metrics := match metrics with None => [VStr "mae"] | Some m => m end in
  let compile_dict :=
    if compile_model && bool_decide (compile_dict = None)
    then Some (_helpers_set_dict_default ∅ (KeysDict compile_defaults))
    else compile_dict in
  model_compile compile_dict;;
  print ">>> model compiled";;
  (if verbose then model_summary else mret tt);;
  mret true.

(** *** The chart helpers *)

(** Names bound at module level of cls_nnetwork.py: the imports and the
    class. Methods live in the class namespace, which a function body
    does not search. *)
Definition module_globals : list string :=
  ["keras"; "pd"; "np"; "glob"; "os"; "plt";
   "StandardScaler"; "MinMaxScaler"; "RobustScaler"; "NeuralManager"].

(** A call through a bare name: the name is looked up first. *)
Definition call_global {A} (name : string) (body : M world A) : M world A :=
  if decide (name ∈ module_globals) then body else raise NameError.

(** [d[key]] *)
Definition subscript {V} (d : gmap string V) (key : string) : M world V :=
  match d !! key with
  | Some v => mret v
  | None => raise KeyError
  end.

(** A method call on a surface; [None] has no such method. *)
Definition with_ax (ax : option nat) (f : Axes → Axes) : M world unit :=
  match ax with
  | None => raise AttributeError
  | Some r =>
      modify (λ w, {| self := self w; stdout := stdout w; calls := calls w;
                      figures := alter f r (figures w) |})
  end.

Definition ax_plot (data : table) (label marker : string) (a : Axes) : Axes :=
  {| ax_lines := ax_lines a ++ [(data, label, marker)];
     ax_legend_loc := ax_legend_loc a;
     ax_spine_right_visible := ax_spine_right_visible a;
     ax_spine_top_visible := ax_spine_top_visible a;
     ax_grid := ax_grid a; ax_texts := ax_texts a; ax_ylim := ax_ylim a;
     ax_title := ax_title a; ax_xlabel := ax_xlabel a;
     ax_ylabel := ax_ylabel a |}.

Definition ax_legend (loc : Z) (a : Axes) : Axes :=
  {| ax_lines := ax_lines a; ax_legend_loc := Some loc;
     ax_spine_right_visible := ax_spine_right_visible a;
     ax_spine_top_visible := ax_spine_top_visible a;
     ax_grid := ax_grid a; ax_texts := ax_texts a; ax_ylim := ax_ylim a;
     ax_title := ax_title a; ax_xlabel := ax_xlabel a;
     ax_ylabel := ax_ylabel a |}.

Definition ax_spine_set_visible (side : string) (b : bool) (a : Axes) : Axes :=
  {| ax_lines := ax_lines a; ax_legend_loc := ax_legend_loc a;
     ax_spine_right_visible :=
       if decide (side = "right") then b else ax_spine_right_visible a;
     ax_spine_top_visible :=
       if decide (side = "top") then b else ax_spine_top_visible a;
     ax_grid := ax_grid a; ax_texts := ax_texts a; ax_ylim := ax_ylim a;
     ax_title := ax_title a; ax_xlabel := ax_xlabel a;
     ax_ylabel := ax_ylabel a |}.

Definition ax_set_grid (b : bool) (color : string) (a : Axes) : Axes :=
  {| ax_lines := ax_lines a; ax_legend_loc := ax_legend_loc a;
     ax_spine_right_visible := ax_spine_right_visible a;
     ax_spine_top_visible := ax_spine_top_visible a;
     ax_grid := Some (b, color); ax_texts := ax_texts a; ax_ylim := ax_ylim a;
     ax_title := ax_title a; ax_xlabel := ax_xlabel a;
     ax_ylabel := ax_ylabel a |}.

Definition ax_text (x : nat) (y : elt) (s weight : string) (a : Axes) : Axes :=
  {| ax_lines := ax_lines a; ax_legend_loc := ax_legend_loc a;
     ax_spine_right_visible := ax_spine_right_visible a;
     ax_spine_top_visible := ax_spine_top_visible a;
     ax_grid := ax_grid a; ax_texts := ax_texts a ++ [(x, y, s, weight)];
     ax_ylim := ax_ylim a;
     ax_title := ax_title a; ax_xlabel := ax_xlabel a;
     ax_ylabel := ax_ylabel a |}.

Definition ax_set_ylim (v : propval) (a : Axes) : Axes :=
  {| ax_lines := ax_lines a; ax_legend_loc := ax_legend_loc a;
     ax_spine_right_visible := ax_spine_right_visible a;
     ax_spine_top_visible := ax_spine_top_visible a;
     ax_grid := ax_grid a; ax_texts := ax_texts a; ax_ylim := Some v;
     ax_title := ax_title a; ax_xlabel := ax_xlabel a;
     ax_ylabel := ax_ylabel a |}.

Definition ax_set_title (v : propval) (fontweight : string) (a : Axes) : Axes :=
  {| ax_lines := ax_lines a; ax_legend_loc := ax_legend_loc a;
     ax_spine_right_visible := ax_spine_right_visible a;
     ax_spine_top_visible := ax_spine_top_visible a;
     ax_grid := ax_grid a; ax_texts := ax_texts a; ax_ylim := ax_ylim a;
     ax_title := Some (v, fontweight); ax_xlabel := ax_xlabel a;
     ax_ylabel := ax_ylabel a |}.

Definition ax_set_xlabel (v : propval) (a : Axes) : Axes :=
  {| ax_lines := ax_lines a; ax_legend_loc := ax_legend_loc a;
     ax_spine_right_visible := ax_spine_right_visible a;
     ax_spine_top_visible := ax_spine_top_visible a;
     ax_grid := ax_grid a; ax_texts := ax_texts a; ax_ylim := ax_ylim a;
     ax_title := ax_title a; ax_xlabel := Some v;
     ax_ylabel := ax_ylabel a |}.

Definition ax_set_ylabel (v : propval) (a : Axes) : Axes :=
  {| ax_lines := ax_lines a; ax_legend_loc := ax_legend_loc a;
     ax_spine_right_visible := ax_spine_right_visible a;
     ax_spine_top_visible := ax_spine_top_visible a;
     ax_grid := ax_grid a; ax_texts := ax_texts a; ax_ylim := ax_ylim a;
     ax_title := ax_title a; ax_xlabel := ax_xlabel a;
     ax_ylabel := Some v |}.

(** What [enumerate(arr_of_labels)] yields as numbers: the entries of a
    1-d array; nothing for an empty array or string; any other value
    cannot be iterated, added to [shift] or formatted with [.4f]. *)
Definition label_values (arr_of_labels : propval) : outcome (list elt) :=
  match arr_of_labels with
  | PSeries a =>
      match nd_shape a with
      | [_] => Ret (nd_data a)
      | 0 :: _ => Ret []
      | _ => Raise TypeError
      end
  | PStr "" => Ret []
  | _ => Raise TypeError
  end.

Definition _plt_label_Series (ax : option nat) (arr_of_labels shift : propval)
  : M world unit :=
  vals ← lift (label_values arr_of_labels);
  for_each (λ _ item,
      match shift with
      | PNum sh =>
          with_ax ax (ax_text item.1 (elt_add lib item.2 sh)
                        (format_4f lib item.2) "bold")
      | _ => raise TypeError
      end)
    tt (zip (seq 0 (length vals)) vals).

Definition _helpers_plt_set_ax_properties (ax : option nat)
    (ax_properties : gmap string propval) : M world unit :=
  with_ax ax (ax_legend 3);;
  with_ax ax (ax_spine_set_visible "right" false);;
  with_ax ax (ax_spine_set_visible "top" false);;
  with_ax ax (ax_set_grid true "0.90");;
  call_global "_plt_label_Series"
    (arr ← subscript ax_properties "label_series_base";
     sh ← subscript ax_properties "shift";
     _plt_label_Series ax arr sh);;
  v ← subscript ax_properties "y_lim"; with_ax ax (ax_set_ylim v);;
  v ← subscript ax_properties "ch_title"; with_ax ax (ax_set_title v "bold");;
  v ← subscript ax_properties "x_label"; with_ax ax (ax_set_xlabel v);;
  v ← subscript ax_properties "y_label"; with_ax ax (ax_set_ylabel v).

(** [fig, ax = plt.subplots(1, 1, figsize=(10, 5))] *)
Definition plt_subplots : M world (option nat) :=
  log CallSubplots;;
  w ← get;
  modify (λ w, {| self := self w; stdout := stdout w; calls := calls w;
                  figures := figures w ++ [new_axes] |});;
  mret (Some (length (figures w))).

(** *** model_fit *)

(** What [model_fit] hands back: [False], the implicit [None], or an array. *)
Inductive fit_result : Type :=
  | FitFalse
  | FitNone
  | FitArray (a : table).

(** [x.reshape(x.shape[0], n_seq, n_steps, n_features)] *)
Definition reshape_for_fit (x : option table) (n_seq n_steps n_features : nat)
  : M world table :=
  match x with
  | None => raise AttributeError
  | Some a =>
      d0 ← lift (np_shape_at a 0);
      lift (np_reshape a [d0; n_seq; n_steps; n_features])
  end.

(** Reading an attribute that may not exist, or a member of [None]. *)
Definition attribute {A} (v : option A) : M world A :=
  match v with
  | None => raise AttributeError
  | Some a => mret a
  end.

(** Reading a local variable that may not have been assigned. *)
Definition local {A} (v : option A) : M world A :=
  match v with
  | None => raise UnboundLocalError
  | Some a => mret a
  end.

(** The title of the chart ends in a line feed. *)
Definition loss_chart_title : string :=
  "Loss by Epoch" +:+ String (Ascii.ascii_of_nat 10) EmptyString.

(** The branch [if print_charts and (not use_tensorboard)]: the simple
    matplotlib chart. It binds the local [val_loss], handed on here. *)
Definition plot_loss_chart (history : gmap string (list elt)) : M world table :=
  loss ← subscript history "loss";
  let loss := np_array1 loss in
  val_loss ← subscript history "val_loss";
  let val_loss := np_array1 val_loss in
  let ax_properties : gmap string propval :=
    <["ch_title" := PStr loss_chart_title]>
    (<["x_label" := PStr "epochs"]>
    (<["y_label" := PStr "Loss"]>
    (<["x_lim" := PNone]>
    (<["y_lim" := PNone]>
    (<["label_series_base" := PSeries val_loss]>
    (<["shift" := PNum (float_5e_4 lib)]> ∅)))))) in
  ax ← plt_subplots;
  with_ax ax (ax_plot loss "train_loss" "o");;
  with_ax ax (ax_plot val_loss "test_loss" "o");;
  _helpers_plt_set_ax_properties ax ax_properties;;
  mret val_loss.

(** The branch [if (print_charts and use_tensorboard)] is a [pass] and
    is left out. *)
Definition model_fit (n_epoch : option Z) (n_seq n_steps : option nat)
    (batch_size verbose : Z) (print_charts use_tensorboard return_results : bool)
  : M world fit_result :=
  s ← get_self;
  match model s with
  | None =>
      print ">>>No model detected. First you have to combine it...";;
      mret FitFalse
  | Some m =>
      let n_epoch := default 10%Z n_epoch in
      let n_seq := default 2 n_seq in
      let n_steps := default 2 n_steps in
      X ← attribute (X_train s);
      n_features ← lift (np_shape_at X 1);
      let x_train := X_train_unrolled s in
      y_train ← attribute (y_train_unrolled s);
      x_train ← reshape_for_fit x_train n_seq n_steps n_features;
      let x_test := X_test_unrolled s in
      y_test ← attribute (y_test_unrolled s);
      x_test ← reshape_for_fit x_test n_seq n_steps n_features;
      let args := {| fit_x := x_train; fit_y := y_train; fit_epochs := n_epoch;
                     fit_batch_size := batch_size;
                     fit_validation_data := (x_test, y_test);
                     fit_verbose := verbose |} in
      log (CallFit args);;
      history ← lift (keras_fit lib m args);
      val_loss ←
        (if print_charts && negb use_tensorboard then
           val_loss ← plot_loss_chart history; mret (Some val_loss)
         else mret None);
      if return_results then
        v ← local val_loss; mret (FitArray v)
      else mret FitNone
  end.

(** *** Vocabulary of the statements *)

(** Keras takes every layer of the template in turn, [before] being
    the layers already in the model. *)
Definition layers_accepted (before template : list layer) : Prop :=
  ∀ pre l post, template = pre ++ l :: post →
                keras_add lib (before ++ pre) l = Ret tt.

(** The state once [keras.Sequential()] is made and the template added. *)
Definition assembled (template : list layer) (w : world) : world :=
  {| self := set_model (Some {| layers := template; compiled := None |}) (self w);
     stdout := stdout w;
     calls := calls w ++ CallSequential :: (CallAdd <$> template);
     figures := figures w |}.

(** A loaded table of a given shape. *)
Definition table_of_shape (shape : list nat) (t : option table) : Prop :=
  ∃ a, t = Some a ∧ nd_shape a = shape ∧ nd_wf a.

(** The end-to-end scenario: four tables of 20 rows, three feature
    columns, one target column, the features normalized. *)
Definition scenario_loaded (w : world) : Prop :=
  table_of_shape [20; 3] (X_train (self w))
  ∧ table_of_shape [20; 3] (X_test (self w))
  ∧ table_of_shape [20; 1] (y_train (self w))
  ∧ table_of_shape [20; 1] (y_test (self w))
  ∧ table_of_shape [20; 3] (X_train_normalized (self w))
  ∧ table_of_shape [20; 3] (X_test_normalized (self w)).

(** The calls that fit a scaler, among the logged ones. *)
Definition fitting_calls (l : list event) : list (option table) :=
  omap (λ e, match e with CallFitTransform X => Some X | _ => None end) l.

End manager.

(** ** Strings of Python *)

Definition slash : Ascii.ascii := Ascii.ascii_of_nat 47.
Definition dot : Ascii.ascii := Ascii.ascii_of_nat 46.

(** [s.split(sep)] for a separator of one character. *)
Fixpoint py_split (sep : Ascii.ascii) (s : string) : list string :=
  match s with
  | EmptyString => [EmptyString]
  | String c s' =>
      if Ascii.eqb c sep then EmptyString :: py_split sep s'
      else match py_split sep s' with
           | [] => [String c EmptyString]
           | piece :: pieces => String c piece :: pieces
           end
  end.

(** [needle in hay] *)
Fixpoint py_in (needle hay : string) : bool :=
  String.prefix needle hay
  || match hay with
     | EmptyString => false
     | String _ hay' => py_in needle hay'
     end.

Fixpoint ends_with (c : Ascii.ascii) (s : string) : bool :=
  match s with
  | EmptyString => false
  | String a EmptyString => Ascii.eqb a c
  | String _ s' => ends_with c s'
  end.

(** [os.path.join(a, b)] of posixpath for two components; [None] for the
    first is a [TypeError]. *)
Definition os_path_join (a : option string) (b : string) : outcome string :=
  match a with
  | None => Raise TypeError
  | Some a =>
      Ret (if String.prefix "/" b then b
           else if bool_decide (a = "") || ends_with slash a then a +:+ b
           else a +:+ "/" +:+ b)
  end.

(** [file_path.split('/')[-1].split('.')[0]] *)
Definition file_name_of (file_path : string) : string :=
  default "" (head (py_split dot (default "" (last (py_split slash file_path))))).

Fixpoint lacks (c : Ascii.ascii) (s : string) : bool :=
  match s with
  | EmptyString => true
  | String a s' => negb (Ascii.eqb a c) && lacks c s'
  end.

(** ** The loader of [__init__] *)

Section loader.
Context {elt layer params : Type}.

Local Abbreviation table := (ndarray elt).
Local Abbreviation manager := (@NeuralManager elt layer params).

(** The file system, as the two library calls see it:
    [glob.glob(pattern)] lists paths in an order of its own choosing,
    [pd.read_csv(path, index_col="Date")] parses one file or raises. *)
Variable glob_glob : string → list string.
Variable read_csv : string → outcome table.

(** The instance while it is constructed: its attributes, the
    [_train_test_init] dict, the output (a text and the dict printed
    after it) and the files opened, in order. *)
Record loader_state : Type := {
  ld_self : manager;
  ld_train_test_init : gmap string bool;
  ld_stdout : list (string * gmap string bool);
  ld_reads : list string;
}.

Definition set_X_train (v : option table) (s : manager) : manager :=
  {| X_train := v; X_test := X_test s; y_train := y_train s;
     y_test := y_test s; X_train_normalized := X_train_normalized s;
     X_test_normalized := X_test_normalized s;
     X_train_unrolled := X_train_unrolled s;
     X_test_unrolled := X_test_unrolled s;
     y_train_unrolled := y_train_unrolled s;
     y_test_unrolled := y_test_unrolled s;
     model := model s; scaler := scaler s |}.

Definition set_X_test (v : option table) (s : manager) : manager :=
  {| X_train := X_train s; X_test := v; y_train := y_train s;
     y_test := y_test s; X_train_normalized := X_train_normalized s;
     X_test_normalized := X_test_normalized s;
     X_train_unrolled := X_train_unrolled s;
     X_test_unrolled := X_test_unrolled s;
     y_train_unrolled := y_train_unrolled s;
     y_test_unrolled := y_test_unrolled s;
     model := model s; scaler := scaler s |}.

Definition set_y_train (v : option table) (s : manager) : manager :=
  {| X_train := X_train s; X_test := X_test s; y_train := v;
     y_test := y_test s; X_train_normalized := X_train_normalized s;
     X_test_normalized := X_test_normalized s;
     X_train_unrolled := X_train_unrolled s;
     X_test_unrolled := X_test_unrolled s;
     y_train_unrolled := y_train_unrolled s;
     y_test_unrolled := y_test_unrolled s;
     model := model s; scaler := scaler s |}.

Definition set_y_test (v : option table) (s : manager) : manager :=
  {| X_train := X_train s; X_test := X_test s; y_train := y_train s;
     y_test := v; X_train_normalized := X_train_normalized s;
     X_test_normalized := X_test_normalized s;
     X_train_unrolled := X_train_unrolled s;
     X_test_unrolled := X_test_unrolled s;
     y_train_unrolled := y_train_unrolled s;
     y_test_unrolled := y_test_unrolled s;
     model := model s; scaler := scaler s |}.

(** [self.<split> = pd.read_csv(file_path, index_col="Date")] followed
    by [self._train_test_init[file_name] = True]. *)
Definition load_split (set : option table → manager → manager)
    (file_path file_name : string) : M loader_state unit :=
  modify (λ st, {| ld_self := ld_self st;
                   ld_train_test_init := ld_train_test_init st;
                   ld_stdout := ld_stdout st;
                   ld_reads := ld_reads st ++ [file_path] |});;
  t ← lift (read_csv file_path);
  modify (λ st, {| ld_self := set (Some t) (ld_self st);
                   ld_train_test_init := ld_train_test_init st;
                   ld_stdout := ld_stdout st; ld_reads := ld_reads st |});;
  modify (λ st, {| ld_self := ld_self st;
                   ld_train_test_init := <[file_name := true]> (ld_train_test_init st);
                   ld_stdout := ld_stdout st; ld_reads := ld_reads st |}).

(** The body of the loop over the paths: four independent tests. *)
Definition load_file (file_path : string) : M loader_state unit :=
  let file_name := file_name_of file_path in
  (if py_in "X_train" file_name
   then load_split set_X_train file_path file_name else mret tt);;
  (if py_in "X_test" file_name
   then load_split set_X_test file_path file_name else mret tt);;
  (if py_in "y_train" file_name
   then load_split set_y_train file_path file_name else mret tt);;
  (if py_in "y_test" file_name
   then load_split set_y_test file_path file_name else mret tt).

Definition _init_train_test_data (dir_path : option string) (verbose : bool)
  : M loader_state unit :=
  pattern ← lift (os_path_join dir_path "*.csv");
  for_each (λ _ file_path, load_file file_path) tt (glob_glob pattern);;
  if verbose then
    modify (λ st, {| ld_self := ld_self st;
                     ld_train_test_init := ld_train_test_init st;
                     ld_stdout := ld_stdout st
                       ++ [(">>> train-test inited: ", ld_train_test_init st)];
                     ld_reads := ld_reads st |})
  else mret tt.

(** The attributes as [__init__] creates them. *)
Definition init_manager : manager :=
  {| X_train := None; X_test := None; y_train := None; y_test := None;
     X_train_normalized := None; X_test_normalized := None;
     X_train_unrolled := None; X_test_unrolled := None;
     y_train_unrolled := None; y_test_unrolled := None;
     model := None; scaler := None |}.

Definition __init__ (dir_path : option string) : M loader_state unit :=
  modify (λ st, {| ld_self := init_manager; ld_train_test_init := ∅;
                   ld_stdout := ld_stdout st; ld_reads := ld_reads st |});;
  _init_train_test_data dir_path true.

(** *** Vocabulary of the loader's statements *)

Definition markers : list string := ["X_train"; "X_test"; "y_train"; "y_test"].

(** The markers a file name carries, in the order they are tested. *)
Definition markers_in (file_name : string) : list string :=
  filter (λ m, py_in m file_name = true) markers.

(** The last path of a listing whose file name carries a marker. *)
Definition last_with (marker : string) (paths : list string) : option string :=
  last (filter (λ p, py_in marker (file_name_of p) = true) paths).

(** What loading one readable file makes of the state. *)
Definition loaded_file (t : ndarray elt) (p : string) (st : loader_state)
  : loader_state :=
  let name := file_name_of p in
  let upd (marker : string) (set : option (ndarray elt) → NeuralManager → NeuralManager)
          (s : NeuralManager) :=
    if py_in marker name then set (Some t) s else s in
  {| ld_self := upd "y_test" set_y_test (upd "y_train" set_y_train
                  (upd "X_test" set_X_test (upd "X_train" set_X_train (ld_self st))));
     ld_train_test_init :=
       if bool_decide (markers_in name = []) then ld_train_test_init st
       else <[name := true]> (ld_train_test_init st);
     ld_stdout := ld_stdout st;
     ld_reads := ld_reads st ++ ((λ _, p) <$> markers_in name) |}.

(** The listing as the loop sees it: every file whose name carries a
    marker parses to the table [tables] names for it. *)
Definition readable (tables : string → ndarray elt) (paths : list string) : Prop :=
  ∀ p, p ∈ paths → markers_in (file_name_of p) ≠ [] → read_csv p = Ret (tables p).

Definition loaded_files (tables : string → ndarray elt) (paths : list string) (st : loader_state)
  : loader_state :=
  foldl (λ st p, loaded_file (tables p) p st) st paths.

(** The table a split holds after the loop. *)
Definition pick (tables : string → ndarray elt) (marker : string)
    (paths : list string) (old : option (ndarray elt)) : option (ndarray elt) :=
  match last_with marker paths with
  | Some p => Some (tables p)
  | None => old
  end.

(** The names entered in [_train_test_init], and the files opened. *)
Definition recorded (paths : list string) : list string :=
  file_name_of <$> filter (λ p, markers_in (file_name_of p) ≠ []) paths.

Definition opened (paths : list string) : list string :=
  paths ≫= λ p, (λ _, p) <$> markers_in (file_name_of p).

End loader.

(** ** Further vocabulary of the statements *)

(** The configuration that reaches [compile]: the defaults when the
    flag is on and none is given, what the caller gave otherwise. *)
Definition compile_config_used (compile_model : bool)
    (compile_dict : option (gmap string pyval)) : option (gmap string pyval) :=
  if compile_model && bool_decide (compile_dict = None)
  then Some compile_defaults else compile_dict.

Section chart_vocabulary.
Context {elt layer params : Type}.
Variable lib : @Library elt layer params.

(** The annotations the label helper writes for the values [vals],
    the first of them at position [start]. *)
Definition annotations (start : nat) (vals : list elt) (sh : elt)
  : list (nat * elt * string * string) :=
  (λ item, (item.1, elt_add lib item.2 sh, format_4f lib item.2, "bold"))
    <$> zip (seq start (length vals)) vals.

Definition add_texts (new : list (nat * elt * string * string)) (a : @Axes elt)
  : @Axes elt :=
  {| ax_lines := ax_lines a; ax_legend_loc := ax_legend_loc a;
     ax_spine_right_visible := ax_spine_right_visible a;
     ax_spine_top_visible := ax_spine_top_visible a;
     ax_grid := ax_grid a; ax_texts := ax_texts a ++ new;
     ax_ylim := ax_ylim a; ax_title := ax_title a;
     ax_xlabel := ax_xlabel a; ax_ylabel := ax_ylabel a |}.
End chart_vocabulary.

(** ** A stand-in library and an instance, for closed examples

    Numbers are integers, a layer is its name, the scaler leaves a table
    as it is, Keras accepts everything and reports two epochs. *)

Definition demo_scaler : @ScalerClass Z unit :=
  {| sc_fit := λ X, match X with Some _ => Ret tt | None => Raise ValueError end;
     sc_apply := λ _ X, match X with Some t => Ret t | None => Raise ValueError end |}.

Definition demo_lib : @Library Z string unit :=
  {| StandardScaler := demo_scaler;
     keras_add := λ _ _, Ret tt;
     keras_compile := λ _ _, Ret tt;
     keras_summary := λ _, Ret tt;
     keras_fit := λ _ _,
       Ret (<["loss" := [3; 2]%Z]> (<["val_loss" := [4; 3]%Z]> ∅));
     float_5e_4 := 0%Z;
     elt_add := Z.add;
     format_4f := λ _, "0.0000" |}.

Definition demo_table (rows cols : nat) : ndarray Z :=
  NdArray [rows; cols] (Z.of_nat <$> seq 0 (rows * cols)).

(** The instance after [__init__] on a directory without CSV files. *)
Definition fresh_manager : @NeuralManager Z string unit :=
  {| X_train := None; X_test := None; y_train := None; y_test := None;
     X_train_normalized := None; X_test_normalized := None;
     X_train_unrolled := None; X_test_unrolled := None;
     y_train_unrolled := None; y_test_unrolled := None;
     model := None; scaler := None |}.

(** Four loaded tables of 20 rows, three feature columns, one target
    column; normalized, and a model assembled. *)
Definition demo_manager : @NeuralManager Z string unit :=
  {| X_train := Some (demo_table 20 3); X_test := Some (demo_table 20 3);
     y_train := Some (demo_table 20 1); y_test := Some (demo_table 20 1);
     X_train_normalized := Some (demo_table 20 3);
     X_test_normalized := Some (demo_table 20 3);
     X_train_unrolled := None; X_test_unrolled := None;
     y_train_unrolled := None; y_test_unrolled := None;
     model := Some {| layers := ["LSTM"; "Dense"]; compiled := None |};
     scaler := Some {| scaler_class := demo_scaler; fitted := Some tt |} |}.

Definition world_of (s : @NeuralManager Z string unit) : world :=
  {| self := s; stdout := []; calls := []; figures := [] |}.

(** The demo instance after [split_X_to_sequencees(4)]. *)
Definition demo_windowed : world :=
  (split_X_to_sequencees 4 (world_of demo_manager)).2.

(** A stricter stand-in: Keras refuses a layer named [Reshape] and the
    loss name [rmse]. *)
Definition strict_lib : @Library Z string unit :=
  {| StandardScaler := demo_scaler;
     keras_add := λ _ l,
       if bool_decide (l = "Reshape") then Raise (LibraryError "ValueError")
       else Ret tt;
     keras_compile := λ _ kwargs,
       match kwargs !! "loss" with
       | Some (VStr name) =>
           if bool_decide (name = "rmse") then Raise (LibraryError "ValueError")
           else Ret tt
       | _ => Ret tt
       end;
     keras_summary := λ _, Ret tt;
     keras_fit := λ _ _,
       Ret (<["loss" := [3; 2]%Z]> (<["val_loss" := [4; 3]%Z]> ∅));
     float_5e_4 := 0%Z;
     elt_add := Z.add;
     format_4f := λ _, "0.0000" |}.

(** A stand-in directory [data] of four files, the last of them broken. *)
Definition demo_glob (pattern : string) : list string :=
  if bool_decide (pattern = "data/*.csv")
  then ["data/X_train.csv"; "data/notes.csv"; "data/y_test.csv";
        "data/y_test_broken.csv"]
  else if bool_decide (pattern = "clean/*.csv")
  then ["clean/X_train_old.csv"; "clean/notes.csv"; "clean/y_test.csv";
        "clean/X_train.csv"]
  else [].

Definition demo_read_csv (path : string) : outcome (ndarray Z) :=
  if bool_decide (path = "data/y_test_broken.csv")
  then Raise (LibraryError "ParserError")
  else if bool_decide (path = "clean/X_train_old.csv") then Ret (demo_table 10 3)
  else if py_in "X_" (file_name_of path) then Ret (demo_table 20 3)
  else Ret (demo_table 20 1).

Definition demo_tables (path : string) : ndarray Z :=
  if bool_decide (path = "clean/X_train_old.csv") then demo_table 10 3
  else if py_in "X_" (file_name_of path) then demo_table 20 3
  else demo_table 20 1.

Definition fresh_loader_state : @loader_state Z string unit :=
  {| ld_self := fresh_manager; ld_train_test_init := ∅; ld_stdout := [];
     ld_reads := [] |}.

(** The batches the demo instance hands to Keras. *)
Definition demo_fit_args : @fit_args Z :=
  {| fit_x := NdArray [16; 2; 2; 3]
                (nd_data (stacked (windows_of (demo_table 20 3) 4 16) [4; 3]));
     fit_y := stacked (windows_of (demo_table 20 1) 4 16) [4; 1];
     fit_epochs := 10;
     fit_batch_size := 32;
     fit_validation_data :=
       (NdArray [16; 2; 2; 3]
          (nd_data (stacked (windows_of (demo_table 20 3) 4 16) [4; 3])),
        stacked (windows_of (demo_table 20 1) 4 16) [4; 1]);
     fit_verbose := 2 |}.

(** * The interpreter: running a sequence of statements *)

Ltac run :=
  unfold mbind, M_bind, mret, M_ret, lift, raise, get_self, get,
    modify_self, log, print, modify; simpl.

Lemma bind_run {S A B} (m : M S A) (f : A → M S B) (s : S) :
  (m ≫= f) s
  = match m s with
    | (Ret a, s') => f a s'
    | (Raise e, s') => (Raise e, s')
    end.
Proof. reflexivity. Qed.

(** * Facts about the NumPy operations *)

Section numpy_facts.
Context {A : Type}.
Implicit Types (a : ndarray A) (l : list (ndarray A)).

Lemma py_clamp_inside (n i : nat) : i ≤ n → py_clamp n (Z.of_nat i) = i.
Proof.
  intros Hi. unfold py_clamp.
  destruct (Z.ltb_spec (Z.of_nat i) 0); [lia|].
  rewrite Nat2Z.id. lia.
Qed.

Lemma np_slice0_rows a (n i L : nat) rest :
  nd_shape a = n :: rest → i + L ≤ n →
  np_slice0 a (Z.of_nat i) (Z.of_nat i + Z.of_nat L) = Ret (rows_between a i L).
Proof.
  intros Hs Hle. unfold np_slice0, rows_between. rewrite Hs. simpl.
  rewrite <- Nat2Z.inj_add, !py_clamp_inside by lia.
  by replace (i + L - i) with L by lia.
Qed.

Lemma rows_between_wf a (n i L : nat) rest :
  nd_shape a = n :: rest → nd_wf a → i + L ≤ n → nd_wf (rows_between a i L).
Proof.
  unfold nd_wf, rows_between. intros Hs Hwf Hle. rewrite Hs in *. simpl in *.
  rewrite length_take, length_drop, Hwf. nia.
Qed.

Lemma np_asarray_stack l (s : list nat) :
  l ≠ [] → Forall (λ b, nd_shape b = s) l →
  np_asarray l = Ret (NdArray (length l :: s) (concat (nd_data <$> l))).
Proof.
  intros Hne Hall. destruct l as [|b l']; [done|].
  unfold np_asarray. pose proof (Forall_inv Hall) as Hb. simpl in Hb.
  rewrite decide_True; [by rewrite Hb|].
  eapply Forall_impl; [exact Hall|]. simpl. congruence.
Qed.

Lemma np_index0_stack l (s : list nat) (i : nat) b :
  Forall (λ b, nd_shape b = s ∧ nd_wf b) l → l !! i = Some b →
  np_index0 (NdArray (length l :: s) (concat (nd_data <$> l))) i = Ret b.
Proof.
  intros Hall Hi. unfold np_index0. simpl.
  rewrite decide_True by (by eapply lookup_lt_Some).
  f_equal. revert i b Hi. induction Hall as [|c l' [Hc Hwf] _ IH]; intros i b Hi; [done|].
  unfold nd_wf in Hwf. rewrite Hc in Hwf.
  destruct i as [|i]; simpl in *.
  - injection Hi as ->. rewrite drop_0, take_app_length' by done.
    destruct b as [sh d]. simpl in *. by subst.
  - rewrite drop_app_add' by done. by apply IH.
Qed.

Lemma np_reshape_shape a (newshape : list nat) :
  nd_size newshape = nd_size (nd_shape a) →
  np_reshape a newshape = Ret (NdArray newshape (nd_data a)).
Proof. intros H. unfold np_reshape. by rewrite decide_True. Qed.
End numpy_facts.

(** * The sequence windower *)

Section windowing_facts.
Context {elt layer params : Type}.
Implicit Types (X y : ndarray elt) (w : @world elt layer params).

Lemma unroll_loop X y (L n : nat) rx ry :
  nd_shape X = n :: rx → nd_shape y = n :: ry →
  ∀ k a acc w, a + k + L ≤ n →
    for_each (unroll_body X y (Z.of_nat L)) acc (Z.of_nat <$> seq a k) w
    = (Ret (acc.1 ++ ((λ i, rows_between X i L) <$> seq a k),
            acc.2 ++ ((λ i, rows_between y i L) <$> seq a k)), w).
Proof.
  intros HX Hy. induction k as [|k IH]; intros a acc w Hle; simpl.
  - by rewrite !app_nil_r, <- surjective_pairing.
  - unfold mbind, M_bind, unroll_body at 1, lift, mret, M_ret. simpl.
    rewrite (np_slice0_rows X n a L rx), (np_slice0_rows y n a L ry) by (done || lia).
    simpl. rewrite IH by lia. simpl. by rewrite <- !app_assoc.
Qed.

Lemma windows_of_length X (L count : nat) : length (windows_of X L count) = count.
Proof. unfold windows_of. by rewrite length_fmap, length_seq. Qed.

Lemma windows_of_shapes X (L count : nat) :
  Forall (λ b, nd_shape b = L :: tail (nd_shape X)) (windows_of X L count).
Proof. by apply Forall_fmap, Forall_seq. Qed.

(** The loop and the two [np.asarray] calls, for a window length below
    the common number of rows. *)
Lemma unroll_run X y (N L : nat) rx ry w :
  nd_shape X = N :: rx → nd_shape y = N :: ry → L < N →
  _unroll_array_to_sequence X y (Z.of_nat L) w
  = (Ret (UnrollPair (stacked (windows_of X L (N - L)) (L :: rx))
                     (stacked (windows_of y L (N - L)) (L :: ry))), w).
Proof.
  intros HsX Hsy HL.
  unfold _unroll_array_to_sequence, np_len. rewrite HsX, Hsy.
  unfold mbind, M_bind, lift, mret, M_ret. simpl.
  rewrite decide_False by (intros ?; done).
  unfold py_range.
  replace (Z.to_nat (Z.of_nat N - Z.of_nat L)) with (N - L) by lia.
  rewrite (unroll_loop X y L N rx ry) by (done || lia). simpl.
  fold (windows_of X L (N - L)) (windows_of y L (N - L)).
  rewrite (np_asarray_stack _ (L :: rx)), (np_asarray_stack _ (L :: ry)); first done.
  - intros E. apply (f_equal length) in E. rewrite windows_of_length in E.
    simpl in E. lia.
  - pose proof (windows_of_shapes y L (N - L)) as H. by rewrite Hsy in H.
  - intros E. apply (f_equal length) in E. rewrite windows_of_length in E.
    simpl in E. lia.
  - pose proof (windows_of_shapes X L (N - L)) as H. by rewrite HsX in H.
Qed.

Lemma stacked_windows_index X (N L i : nat) rx :
  nd_shape X = N :: rx → nd_wf X → L < N → i < N - L →
  np_index0 (stacked (windows_of X L (N - L)) (L :: rx)) i
  = Ret (rows_between X i L).
Proof.
  intros HsX Hwf HL Hi. apply np_index0_stack.
  - apply Forall_fmap, Forall_seq. intros j Hj. simpl. split.
    + by rewrite HsX.
    + eapply rows_between_wf; [done..|lia].
  - unfold windows_of. by rewrite list_lookup_fmap, lookup_seq_lt.
Qed.

(** C1: for tables of equal length [N] and a window length [L < N],
    the windowing returns [N - L] window pairs, window [i] being rows
    [i, i+L) of the input, each window of exactly [L] rows. *)
Theorem unroll_yields_all_windows X y (N L : nat) w :
  nd_wf X → nd_wf y →
  np_len X = Ret N → np_len y = Ret N → L < N →
  ∃ set_X set_y,
    _unroll_array_to_sequence X y (Z.of_nat L) w = (Ret (UnrollPair set_X set_y), w)
    ∧ nd_shape set_X = (N - L) :: L :: tail (nd_shape X)
    ∧ nd_shape set_y = (N - L) :: L :: tail (nd_shape y)
    ∧ ∀ i, i < N - L →
        np_index0 set_X i = Ret (rows_between X i L)
        ∧ np_index0 set_y i = Ret (rows_between y i L).
Proof.
  intros HwX Hwy HlX Hly HL.
  unfold np_len in HlX, Hly.
  destruct (nd_shape X) as [|n rx] eqn:HsX; [done|].
  destruct (nd_shape y) as [|m ry] eqn:Hsy; [done|].
  injection HlX as ->. injection Hly as ->.
  eexists _, _. split; [by apply unroll_run|].
  unfold stacked at 1 2. simpl. rewrite !windows_of_length.
  do 2 (split; [done|]).
  intros i Hi. split; by apply stacked_windows_index.
Qed.

(** C2: for tables whose row counts differ the windowing returns
    [False] without raising; it reports one line and builds nothing. *)
Theorem unroll_mismatch_returns_false X y (n m : nat) (L : Z) w :
  np_len X = Ret n → np_len y = Ret m → n ≠ m →
  _unroll_array_to_sequence X y L w
  = (Ret UnrollFalse,
     {| self := self w;
        stdout := stdout w ++ [">>> X and y data should have same len..."];
        calls := calls w; figures := figures w |}).
Proof.
  intros HX Hy Hne. unfold _unroll_array_to_sequence.
  rewrite HX, Hy. unfold mbind, M_bind, lift. simpl.
  by rewrite decide_True.
Qed.

(** The caller unpacks the result into two names: on [False] that
    assignment raises [TypeError], and no attribute is written. *)
Lemma split_mismatched_train_raises Xn yt (n m : nat) (L : Z) w :
  X_train_normalized (self w) = Some Xn → y_train (self w) = Some yt →
  np_len Xn = Ret n → np_len yt = Ret m → n ≠ m →
  ∃ w', split_X_to_sequencees L w = (Raise TypeError, w')
        ∧ self w' = self w.
Proof.
  intros HX Hy Hn Hm Hne. eexists. unfold split_X_to_sequencees.
  unfold mbind at 1, M_bind at 1, get_self, get. simpl.
  unfold mbind at 1, M_bind at 1. rewrite HX, Hy.
  unfold call_unroll, _unroll_array_to_sequence.
  rewrite Hn, Hm. unfold mbind, M_bind, lift. simpl.
  rewrite decide_True by done. simpl. done.
Qed.
End windowing_facts.

(** * The default merge of dictionaries *)

Section default_merge_facts.
Implicit Types (D defaults : gmap string pyval) (k : string) (v : pyval).

Lemma set_default_lookup D key val k :
  set_default D key val !! k
  = match D !! k with
    | Some old => Some old
    | None => if decide (key = k) then Some val else None
    end.
Proof.
  unfold set_default. destruct (decide (key = k)) as [->|Hne].
  - rewrite lookup_insert_eq. by destruct (D !! k).
  - rewrite lookup_insert_ne by done. by destruct (D !! k).
Qed.

(** The loop over a list of bindings: present keys stay, an absent key
    takes the value of its first binding. *)
Lemma set_default_items_lookup (items : list (string * pyval)) D k :
  foldl (λ d item, set_default d item.1 item.2) D items !! k
  = match D !! k with
    | Some old => Some old
    | None => (list_to_map items : gmap string pyval) !! k
    end.
Proof.
  revert D. induction items as [|[key val] items IH]; intros D; simpl.
  - destruct (D !! k); [done|]. by rewrite lookup_empty.
  - rewrite IH, set_default_lookup. destruct (D !! k) as [old|]; [done|].
    destruct (decide (key = k)) as [->|Hne].
    + by rewrite lookup_insert_eq.
    + by rewrite lookup_insert_ne.
Qed.

Lemma set_dict_default_lookup D defaults k :
  _helpers_set_dict_default D (KeysDict defaults) !! k
  = match D !! k with
    | Some old => Some old
    | None => defaults !! k
    end.
Proof.
  unfold _helpers_set_dict_default.
  by rewrite set_default_items_lookup, list_to_map_to_list.
Qed.

(** C3: merging a partial dict [D] against a dict of defaults keeps
    every binding of [D], gives every key absent from [D] what the
    defaults bind it to, and merging the result again changes nothing. *)
Theorem set_dict_default_merge D defaults :
  (∀ k v, D !! k = Some v →
          _helpers_set_dict_default D (KeysDict defaults) !! k = Some v)
  ∧ (∀ k, D !! k = None →
          _helpers_set_dict_default D (KeysDict defaults) !! k = defaults !! k)
  ∧ _helpers_set_dict_default
      (_helpers_set_dict_default D (KeysDict defaults)) (KeysDict defaults)
    = _helpers_set_dict_default D (KeysDict defaults).
Proof.
  split; [|split].
  - intros k v Hk. by rewrite set_dict_default_lookup, Hk.
  - intros k Hk. by rewrite set_dict_default_lookup, Hk.
  - apply map_eq. intros k. rewrite !set_dict_default_lookup.
    destruct (D !! k); [done|]. by destruct (defaults !! k).
Qed.

(** With a list of keys the missing ones are bound to [None]. *)
Lemma set_dict_default_list_lookup (l : list string) D k :
  _helpers_set_dict_default D (KeysList l) !! k
  = match D !! k with
    | Some old => Some old
    | None => if decide (k ∈ l) then Some VNone else None
    end.
Proof.
  unfold _helpers_set_dict_default. revert D.
  induction l as [|key l IH]; intros D; simpl.
  - destruct (D !! k); [done|]. by destruct (decide (k ∈ [])) as [?%elem_of_nil|].
  - rewrite IH, set_default_lookup. destruct (D !! k) as [old|]; [done|].
    destruct (decide (key = k)) as [->|Hne].
    + by rewrite decide_True by left.
    + destruct (decide (k ∈ l)) as [Hin|Hnin].
      * by rewrite decide_True by (by right).
      * rewrite decide_False; [done|]. intros [?|?]%elem_of_cons; congruence.
Qed.

Lemma compile_defaults_merged :
  _helpers_set_dict_default ∅ (KeysDict compile_defaults) = compile_defaults.
Proof.
  apply map_eq. intros k. by rewrite set_dict_default_lookup, lookup_empty.
Qed.
End default_merge_facts.

(** * The model assembler *)

Section assembler_facts.
Context {elt layer params : Type} (lib : @Library elt layer params).
Implicit Types (w : @world elt layer params) (template : list layer).

Lemma model_add_accepted l m w :
  model (self w) = Some m → keras_add lib (layers m) l = Ret tt →
  model_add lib l w
  = (Ret tt,
     {| self := set_model
          (Some {| layers := layers m ++ [l]; compiled := compiled m |}) (self w);
        stdout := stdout w; calls := calls w ++ [CallAdd l];
        figures := figures w |}).
Proof. intros Hm Hk. unfold model_add. run. by rewrite Hm, Hk. Qed.

Lemma add_loop template : ∀ m0 w,
  model (self w) = Some m0 → layers_accepted lib (layers m0) template →
  for_each (λ _ l, model_add lib l) tt template w
  = (Ret tt,
     {| self := set_model
          (Some {| layers := layers m0 ++ template; compiled := compiled m0 |})
          (self w);
        stdout := stdout w;
        calls := calls w ++ (CallAdd <$> template);
        figures := figures w |}).
Proof.
  induction template as [|l template IH]; intros m0 w Hm Hacc.
  - simpl. run. destruct w as [s ? ? ?], s, m0; simpl in *.
    subst. unfold set_model. simpl. by rewrite !app_nil_r.
  - change (for_each ?f tt (l :: template) w)
      with (match model_add lib l w with
            | (Ret a, s') => for_each f a template s'
            | (Raise e, s') => (Raise e, s')
            end).
    rewrite (model_add_accepted l m0) by
      (try done; rewrite <- (app_nil_r (layers m0)); by apply (Hacc [] l template)).
    erewrite IH; [|simpl; reflexivity|].
    + simpl. by rewrite <- !app_assoc.
    + simpl. intros pre l' post ->. rewrite <- app_assoc. simpl.
      by apply (Hacc (l :: pre) l' post).
Qed.

(** Whatever the flags, once the layers are appended the body goes on
    with the compile call. *)
Lemma model_combine_reaches_compile template cm cd metrics verbose w :
  layers_accepted lib [] template →
  model_combine lib template cm cd metrics verbose w
  = (model_compile lib
       (if cm && bool_decide (cd = None)
        then Some (_helpers_set_dict_default ∅ (KeysDict compile_defaults))
        else cd);;
     print ">>> model compiled";;
     (if verbose then model_summary lib else mret tt);;
     mret true) (assembled template w).
Proof.
  intros Hacc. unfold model_combine.
  rewrite bind_run. unfold log at 1, modify at 1. cbv beta iota.
  rewrite bind_run. unfold modify_self at 1, modify at 1. cbv beta iota.
  rewrite bind_run.
  erewrite (add_loop template {| layers := []; compiled := None |});
    [|reflexivity|exact Hacc].
  unfold assembled. simpl. by rewrite <- app_assoc.
Qed.

Lemma compile_call_logged kwargs (verbose : bool) m w :
  model (self w) = Some m →
  ∃ tl,
    calls ((model_compile lib (Some kwargs);;
            print ">>> model compiled";;
            (if verbose then model_summary lib else mret tt);;
            mret true) w).2
    = calls w ++ CallCompile kwargs :: tl.
Proof.
  intros Hm. unfold model_compile, model_summary. run. rewrite Hm.
  destruct (keras_compile lib (layers m) kwargs); simpl;
    [|eexists; reflexivity].
  destruct verbose; simpl; [|eexists; reflexivity].
  destruct (keras_summary lib _); simpl;
    rewrite <- app_assoc; eexists; reflexivity.
Qed.

(** With the configuration omitted and the compile flag on, the
    defaults are compiled; the [metrics] argument is not among what
    decides them. *)
Lemma model_combine_default_config template metrics verbose w :
  layers_accepted lib [] template →
  ∃ tl,
    calls (model_combine lib template true None metrics verbose w).2
    = calls (assembled template w) ++ CallCompile compile_defaults :: tl.
Proof.
  intros Hacc. rewrite model_combine_reaches_compile by done.
  rewrite andb_true_l, bool_decide_eq_true_2, compile_defaults_merged by done.
  by eapply compile_call_logged.
Qed.
(** C10: once the layers are appended, compilation is entered whatever
    the compile flag says: with a configuration given it is compiled
    under either flag, and with the flag off and no configuration the
    call raises instead of skipping the compilation (with the flag on
    the defaults are compiled). *)
Theorem model_combine_compiles_regardless template metrics verbose w :
  layers_accepted lib [] template →
  (∀ compile_model kwargs, ∃ tl,
      calls (model_combine lib template compile_model (Some kwargs)
               metrics verbose w).2
      = calls (assembled template w) ++ CallCompile kwargs :: tl)
  ∧ (∃ tl,
      calls (model_combine lib template true None metrics verbose w).2
      = calls (assembled template w) ++ CallCompile compile_defaults :: tl)
  ∧ model_combine lib template false None metrics verbose w
    = (Raise TypeError, assembled template w).
Proof.
  intros Hacc. split; [|split].
  - intros cm kwargs. rewrite model_combine_reaches_compile by done.
    rewrite andb_false_r. by eapply compile_call_logged.
  - by apply model_combine_default_config.
  - by rewrite model_combine_reaches_compile.
Qed.
End assembler_facts.

(** * The normalizer *)

Section normalizer_facts.
Context {elt layer params : Type} (lib : @Library elt layer params).
Implicit Types (w : @world elt layer params).

(** C8: one call of [normalize_X] fits the scaler once, on the training
    features; the test features only go through [transform], and the
    parameters the scaler holds at the end are those fitted on the
    training features. *)
Theorem normalize_fits_on_train_only scaler_arg w :
  let cls := default (StandardScaler lib) scaler_arg in
  let r := normalize_X lib scaler_arg w in
  (∃ new, calls r.2 = calls w ++ new
          ∧ fitting_calls new = [X_train (self w)]
          ∧ (new = [CallFitTransform (X_train (self w))]
             ∨ new = [CallFitTransform (X_train (self w));
                      CallTransform (X_test (self w))]))
  ∧ scaler (self r.2)
    = Some {| scaler_class := cls;
              fitted := match sc_fit cls (X_train (self w)) with
                        | Ret p => Some p
                        | Raise _ => None
                        end |}
  ∧ ∀ p tr te,
      sc_fit cls (X_train (self w)) = Ret p →
      sc_apply cls p (X_train (self w)) = Ret tr →
      sc_apply cls p (X_test (self w)) = Ret te →
      r.1 = Ret true
      ∧ X_train_normalized (self r.2) = Some tr
      ∧ X_test_normalized (self r.2) = Some te.
Proof.
  intros cls r. subst r. unfold normalize_X, scaler_fit_transform, scaler_transform.
  run. fold cls.
  destruct (sc_fit cls (X_train (self w))) as [p|e] eqn:Hfit; simpl.
  - destruct (sc_apply cls p (X_train (self w))) as [tr|e] eqn:Htr; simpl.
    + destruct (sc_apply cls p (X_test (self w))) as [te|e] eqn:Hte; simpl.
      * split; [|split; [done|]].
        -- eexists. rewrite <- app_assoc. split; [done|]. split; [done|by right].
        -- intros p' tr' te' H1 H2 H3. injection H1 as <-.
           rewrite Htr in H2. rewrite Hte in H3. by simplify_eq.
      * split; [|split; [done|]].
        -- eexists. rewrite <- app_assoc. split; [done|]. split; [done|by right].
        -- intros p' tr' te' H1 H2 H3. injection H1 as <-. congruence.
    + split; [|split; [done|]].
      * eexists. split; [done|]. split; [done|by left].
      * intros p' tr' te' H1 H2 H3. injection H1 as <-. congruence.
  - split; [|split; [done|]].
    + eexists. split; [done|]. split; [done|by left].
    + intros p' tr' te' H1. congruence.
Qed.
End normalizer_facts.

(** * The chart formatter *)

Section chart_facts.
Context {elt layer params : Type} (lib : @Library elt layer params).
Implicit Types (w : @world elt layer params).

Lemma label_helper_not_global : "_plt_label_Series" ∉ module_globals.
Proof. apply (bool_decide_eq_false_1 _). by vm_compute. Qed.

Lemma call_global_label_helper {A} (body : M (@world elt layer params) A) w :
  call_global "_plt_label_Series" body w = (Raise NameError, w).
Proof.
  unfold call_global. by rewrite decide_False by apply label_helper_not_global.
Qed.

(** The formatter up to its fifth statement. *)
Lemma set_ax_properties_run (r : nat) (ax_properties : gmap string propval) w :
  _helpers_plt_set_ax_properties lib (Some r) ax_properties w
  = (Raise NameError,
     {| self := self w; stdout := stdout w; calls := calls w;
        figures :=
          alter (ax_set_grid true "0.90") r
            (alter (ax_spine_set_visible "top" false) r
               (alter (ax_spine_set_visible "right" false) r
                  (alter (ax_legend 3) r (figures w)))) |}).
Proof.
  unfold _helpers_plt_set_ax_properties, with_ax.
  do 5 (rewrite bind_run; unfold modify at 1; cbv beta iota).
  by rewrite call_global_label_helper.
Qed.

(** C9 as the code has it: on every surface and every bundle the
    formatter sets legend, spines and grid and then raises [NameError]
    at the call of the label helper; annotations, limits, title and
    axis labels stay as they were. *)
Theorem chart_formatter_raises (r : nat) (ax_properties : gmap string propval) w :
  let res := _helpers_plt_set_ax_properties lib (Some r) ax_properties w in
  res.1 = Raise NameError
  ∧ self res.2 = self w ∧ stdout res.2 = stdout w ∧ calls res.2 = calls w
  ∧ ∀ a, figures w !! r = Some a →
      ∃ a', figures res.2 !! r = Some a'
        ∧ ax_legend_loc a' = Some 3%Z
        ∧ ax_spine_right_visible a' = false
        ∧ ax_spine_top_visible a' = false
        ∧ ax_grid a' = Some (true, "0.90")
        ∧ ax_texts a' = ax_texts a
        ∧ ax_ylim a' = ax_ylim a
        ∧ ax_title a' = ax_title a
        ∧ ax_xlabel a' = ax_xlabel a
        ∧ ax_ylabel a' = ax_ylabel a.
Proof.
  intros res. subst res. rewrite set_ax_properties_run. simpl.
  do 4 (split; [done|]). intros a Ha.
  eexists. rewrite !list_lookup_alter_eq, Ha. simpl. split; [reflexivity|done].
Qed.
End chart_facts.

(** * The training orchestrator *)

Section fit_facts.
Context {elt layer params : Type} (lib : @Library elt layer params).
Implicit Types (w : @world elt layer params).

(** C7: without an assembled model the fit reports one line and
    returns [False]; nothing is trained and no attribute changes. *)
Theorem fit_without_model n_epoch n_seq n_steps batch_size verbose
    print_charts use_tensorboard return_results w :
  model (self w) = None →
  model_fit lib n_epoch n_seq n_steps batch_size verbose
    print_charts use_tensorboard return_results w
  = (Ret FitFalse,
     {| self := self w;
        stdout := stdout w
          ++ [">>>No model detected. First you have to combine it..."];
        calls := calls w; figures := figures w |}).
Proof. intros Hm. unfold model_fit. run. by rewrite Hm. Qed.

Lemma plt_subplots_run w :
  plt_subplots w
  = (Ret (Some (length (figures w))),
     {| self := self w; stdout := stdout w;
        calls := calls w ++ [CallSubplots];
        figures := figures w ++ [new_axes] |}).
Proof. reflexivity. Qed.

Lemma with_ax_run (r : nat) (f : Axes → Axes) w :
  with_ax (Some r) f w
  = (Ret tt,
     {| self := self w; stdout := stdout w; calls := calls w;
        figures := alter f r (figures w) |}).
Proof. reflexivity. Qed.

(** The chart branch of [model_fit] ends in the formatter, so it raises. *)
Lemma chart_branch_raises (history : gmap string (list elt)) w :
  ∃ e w',
    plot_loss_chart lib history w = (Raise e, w')
    ∧ self w' = self w
    ∧ (calls w' = calls w ∨ calls w' = calls w ++ [CallSubplots]).
Proof.
  unfold plot_loss_chart.
  rewrite bind_run. unfold subscript at 1.
  destruct (history !! "loss") as [loss|]; [|by eexists _, _; split; [done|]; auto].
  unfold mret at 1, M_ret at 1. cbv beta iota zeta.
  rewrite bind_run. unfold subscript at 1.
  destruct (history !! "val_loss") as [val_loss|];
    [|by eexists _, _; split; [done|]; auto].
  unfold mret at 1, M_ret at 1. cbv beta iota zeta.
  rewrite bind_run, plt_subplots_run. cbv beta iota.
  do 2 (rewrite bind_run, with_ax_run; cbv beta iota).
  rewrite bind_run, set_ax_properties_run. cbv beta iota.
  eexists _, _; split; [done|]; auto.
Qed.

(** C6 as the code has it: with the return flag set, no setting of the
    other flags makes [model_fit] return the validation-loss series; once
    a model is assembled, every such call raises. *)
Theorem fit_never_returns_val_loss n_epoch n_seq n_steps batch_size verbose
    print_charts use_tensorboard w :
  let o := (model_fit lib n_epoch n_seq n_steps batch_size verbose
              print_charts use_tensorboard true w).1 in
  (∀ v, o ≠ Ret (FitArray v))
  ∧ (is_Some (model (self w)) → is_raise o).
Proof.
  unfold model_fit, plot_loss_chart, attribute, reshape_for_fit, subscript, local.
  run. split.
  - intros v. repeat (case_match; simpl in *; simplify_eq; try done).
  - intros [m Hm]. rewrite Hm.
    repeat (case_match; simpl in *; simplify_eq; try done).
Qed.
End fit_facts.

(** * The end-to-end scenario *)

Section scenario_facts.
Context {elt layer params : Type} (lib : @Library elt layer params).
Implicit Types (w : @world elt layer params).

Lemma unroll_20_rows (X y : ndarray elt) (F T : nat) w :
  nd_shape X = [20; F] → nd_shape y = [20; T] →
  ∃ set_X set_y,
    _unroll_array_to_sequence X y 4 w = (Ret (UnrollPair set_X set_y), w)
    ∧ nd_shape set_X = [16; 4; F] ∧ nd_shape set_y = [16; 4; T].
Proof.
  intros HX Hy. eexists _, _.
  split; [apply (unroll_run X y 20 4 [F] [T]); (done || lia)|].
  unfold stacked. simpl. by rewrite ?windows_of_length.
Qed.

Lemma reshape_windows_run (a : ndarray elt) (F : nat) w :
  nd_shape a = [16; 4; F] →
  reshape_for_fit (Some a) 2 2 F w = (Ret (NdArray [16; 2; 2; F] (nd_data a)), w).
Proof.
  intros Ha. unfold reshape_for_fit, np_shape_at. rewrite Ha. run.
  rewrite np_reshape_shape; [done|]. rewrite Ha. simpl. lia.
Qed.

Local Arguments _unroll_array_to_sequence : simpl never.
Local Arguments reshape_for_fit : simpl never.

(** C5: with four tables of 20 rows, three feature columns and one
    target column, windowing with [sequence_length = 4] stores batches
    of shapes (16,4,3) and (16,4,1); the fit with [n_seq = 2] and
    [n_steps = 2] then hands Keras batches of shape (16,2,2,3). *)
Theorem scenario_20_rows_shapes w :
  scenario_loaded w →
  ∃ w1,
    split_X_to_sequencees 4 w = (Ret tt, w1)
    ∧ nd_shape <$> X_train_unrolled (self w1) = Some [16; 4; 3]
    ∧ nd_shape <$> y_train_unrolled (self w1) = Some [16; 4; 1]
    ∧ nd_shape <$> X_test_unrolled (self w1) = Some [16; 4; 3]
    ∧ nd_shape <$> y_test_unrolled (self w1) = Some [16; 4; 1]
    ∧ ∀ m n_epoch batch_size verbose print_charts use_tensorboard return_results,
        model (self w1) = Some m →
        ∃ args tl,
          calls (model_fit lib n_epoch (Some 2) (Some 2) batch_size verbose
                   print_charts use_tensorboard return_results w1).2
          = calls w1 ++ CallFit args :: tl
          ∧ nd_shape (fit_x args) = [16; 2; 2; 3]
          ∧ nd_shape (fit_validation_data args).1 = [16; 2; 2; 3].
Proof.
  intros ((Xtr & HXtr & HsXtr & _) & _ & (ytr & Hytr & Hsytr & Hwytr)
          & (yte & Hyte & Hsyte & Hwyte) & (Xn & HXn & HsXn & HwXn)
          & (Xtn & HXtn & HsXtn & HwXtn)).
  destruct (unroll_20_rows Xn ytr 3 1 w) as (sx & sy & Htrain & Hsx & Hsy);
    [done..|].
  set (w' := {| self := set_train_unrolled sx sy (self w); stdout := stdout w;
                calls := calls w; figures := figures w |}).
  destruct (unroll_20_rows Xtn yte 3 1 w') as (tx & ty & Htest & Htx & Hty);
    [done..|].
  exists {| self := set_test_unrolled tx ty (self w'); stdout := stdout w;
            calls := calls w; figures := figures w |}.
  split.
  { unfold split_X_to_sequencees, call_unroll, unpack_pair. run.
    rewrite HXn, Hytr, Htrain. simpl. rewrite HXtn, Hyte.
    fold w'. by rewrite Htest. }
  simpl. rewrite Hsx, Hsy, Htx, Hty. do 4 (split; [done|]).
  intros m n_epoch batch_size verbose pc tb rr Hm.
  unfold model_fit, attribute. run. rewrite Hm, HXtr. simpl.
  unfold np_shape_at at 1. rewrite HsXtr. simpl.
  rewrite (reshape_windows_run sx 3) by done. simpl.
  rewrite (reshape_windows_run tx 3) by done. simpl.
  eexists _. 
  destruct (keras_fit lib m _) as [history|e]; simpl.
  2: { by eexists. }
  destruct (pc && negb tb).
  - match goal with
    | |- context [plot_loss_chart lib history ?w0] =>
        destruct (chart_branch_raises lib history w0) as (e & w2 & -> & _ & Hcalls)
    end.
    simpl in *. destruct Hcalls as [-> | ->];
      eexists; rewrite <- ?app_assoc; (split; [reflexivity|done]).
  - unfold local. destruct rr; simpl; eexists; (split; [reflexivity|done]).
Qed.
End scenario_facts.

(** * Closed examples on the stand-in library *)

Lemma unroll_yields_all_windows_witness :
  ∃ set_X set_y,
    _unroll_array_to_sequence (demo_table 20 3) (demo_table 20 1) 4
      (world_of fresh_manager)
    = (Ret (UnrollPair set_X set_y), world_of fresh_manager)
    ∧ nd_shape set_X = [16; 4; 3]
    ∧ nd_shape set_y = [16; 4; 1]
    ∧ ∀ i, i < 16 →
        np_index0 set_X i = Ret (rows_between (demo_table 20 3) i 4)
        ∧ np_index0 set_y i = Ret (rows_between (demo_table 20 1) i 4).
Proof.
  apply (unroll_yields_all_windows (demo_table 20 3) (demo_table 20 1) 20 4
           (world_of fresh_manager));
    [vm_compute; reflexivity | vm_compute; reflexivity
    | reflexivity | reflexivity | lia].
Defined.

Lemma unroll_mismatch_returns_false_witness :
  _unroll_array_to_sequence (demo_table 5 2) (demo_table 4 1) 4
    (world_of fresh_manager)
  = (Ret UnrollFalse,
     {| self := fresh_manager;
        stdout := [">>> X and y data should have same len..."];
        calls := []; figures := [] |}).
Proof.
  apply (unroll_mismatch_returns_false (demo_table 5 2) (demo_table 4 1) 5 4 4
           (world_of fresh_manager)); [reflexivity | reflexivity | lia].
Defined.

(** C4, at a call that passes [metrics=["mse"]] and no configuration:
    Keras is handed [metrics=["mae"]]. *)
Theorem model_combine_ignores_metrics :
  let r := model_combine demo_lib ["LSTM"; "Dense"] true None
             (Some [VStr "mse"]) false (world_of fresh_manager) in
  r.1 = Ret true
  ∧ calls r.2 = [CallSequential; CallAdd "LSTM"; CallAdd "Dense";
                 CallCompile compile_defaults]
  ∧ compile_defaults !! "optimizer" = Some (VStr "adam")
  ∧ compile_defaults !! "loss" = Some (VStr "rmse")
  ∧ compile_defaults !! "metrics" = Some (VList [VStr "mae"]).
Proof. vm_compute. repeat split; reflexivity. Qed.

Lemma fit_without_charts_raises :
  (model_fit demo_lib None None None 32 2 false false true demo_windowed).1
  = Raise UnboundLocalError.
Proof. vm_compute. reflexivity. Qed.

Lemma fit_with_tensorboard_raises :
  (model_fit demo_lib None None None 32 2 true true true demo_windowed).1
  = Raise UnboundLocalError.
Proof. vm_compute. reflexivity. Qed.

Lemma fit_with_charts_raises :
  (model_fit demo_lib None None None 32 2 true false true demo_windowed).1
  = Raise NameError.
Proof. vm_compute. reflexivity. Qed.

(** Without the return flag and without charts the fit goes through. *)
Lemma fit_quiet_returns_none :
  (model_fit demo_lib None None None 32 2 false false false demo_windowed).1
  = Ret FitNone.
Proof. vm_compute. reflexivity. Qed.

Lemma fit_without_model_witness :
  model_fit demo_lib None None None 32 2 true false true (world_of fresh_manager)
  = (Ret FitFalse,
     {| self := fresh_manager;
        stdout := [">>>No model detected. First you have to combine it..."];
        calls := []; figures := [] |}).
Proof.
  apply (fit_without_model demo_lib None None None 32 2 true false true
           (world_of fresh_manager)).
  reflexivity.
Defined.

Lemma model_combine_compiles_regardless_witness :
  (∀ compile_model kwargs, ∃ tl,
      calls (model_combine demo_lib ["LSTM"; "Dense"] compile_model (Some kwargs)
               None true (world_of fresh_manager)).2
      = calls (assembled ["LSTM"; "Dense"] (world_of fresh_manager))
        ++ CallCompile kwargs :: tl)
  ∧ (∃ tl,
      calls (model_combine demo_lib ["LSTM"; "Dense"] true None None true
               (world_of fresh_manager)).2
      = calls (assembled ["LSTM"; "Dense"] (world_of fresh_manager))
        ++ CallCompile compile_defaults :: tl)
  ∧ model_combine demo_lib ["LSTM"; "Dense"] false None None true
      (world_of fresh_manager)
    = (Raise TypeError, assembled ["LSTM"; "Dense"] (world_of fresh_manager)).
Proof.
  apply (model_combine_compiles_regardless demo_lib ["LSTM"; "Dense"] None true
           (world_of fresh_manager)).
  intros pre l post _. reflexivity.
Defined.

Lemma demo_scenario_loaded : scenario_loaded (world_of demo_manager).
Proof.
  repeat split; eexists; (split; [reflexivity|]); split; vm_compute; reflexivity.
Defined.

Lemma scenario_20_rows_shapes_witness :
  ∃ w1,
    split_X_to_sequencees 4 (world_of demo_manager) = (Ret tt, w1)
    ∧ nd_shape <$> X_train_unrolled (self w1) = Some [16; 4; 3]
    ∧ nd_shape <$> y_train_unrolled (self w1) = Some [16; 4; 1]
    ∧ nd_shape <$> X_test_unrolled (self w1) = Some [16; 4; 3]
    ∧ nd_shape <$> y_test_unrolled (self w1) = Some [16; 4; 1]
    ∧ ∀ m n_epoch batch_size verbose print_charts use_tensorboard return_results,
        model (self w1) = Some m →
        ∃ args tl,
          calls (model_fit demo_lib n_epoch (Some 2) (Some 2) batch_size verbose
                   print_charts use_tensorboard return_results w1).2
          = calls w1 ++ CallFit args :: tl
          ∧ nd_shape (fit_x args) = [16; 2; 2; 3]
          ∧ nd_shape (fit_validation_data args).1 = [16; 2; 2; 3].
Proof.
  apply (scenario_20_rows_shapes demo_lib (world_of demo_manager)).
  exact demo_scenario_loaded.
Defined.

(** The label helper itself, called on a surface, annotates every point. *)
Lemma label_helper_annotates :
  figures (_plt_label_Series demo_lib (Some 0) (PSeries (np_array1 [4; 3]%Z))
             (PNum 1%Z)
             {| self := fresh_manager; stdout := []; calls := [];
                figures := [new_axes] |}).2
  !! 0 ≫= (λ a, Some (ax_texts a))
  = Some [(0, 5%Z, "0.0000", "bold"); (1, 4%Z, "0.0000", "bold")].
Proof. vm_compute. reflexivity. Qed.

(** The formatter on a fresh surface with the bundle of [model_fit]:
    legend, spines and grid are set, nothing else. *)
Lemma chart_formatter_on_fresh_surface :
  let ax_properties : gmap string propval :=
    <["ch_title" := PStr loss_chart_title]>
    (<["x_label" := PStr "epochs"]>
    (<["y_label" := PStr "Loss"]>
    (<["x_lim" := PNone]>
    (<["y_lim" := PNone]>
    (<["label_series_base" := PSeries (np_array1 [4; 3]%Z)]>
    (<["shift" := PNum 0%Z]> ∅)))))) in
  let r := _helpers_plt_set_ax_properties demo_lib (Some 0) ax_properties
             {| self := fresh_manager; stdout := []; calls := [];
                figures := [new_axes] |} in
  r.1 = Raise NameError
  ∧ figures r.2
    = [{| ax_lines := []; ax_legend_loc := Some 3%Z;
          ax_spine_right_visible := false; ax_spine_top_visible := false;
          ax_grid := Some (true, "0.90"); ax_texts := []; ax_ylim := None;
          ax_title := None; ax_xlabel := None; ax_ylabel := None |}].
Proof. vm_compute. split; reflexivity. Qed.

(** A partial configuration merged against the compile defaults. *)
Lemma set_dict_default_partial_config :
  _helpers_set_dict_default (<["loss" := VStr "mse"]> ∅) (KeysDict compile_defaults)
  = <["optimizer" := VStr "adam"]>
      (<["loss" := VStr "mse"]> (<["metrics" := VList [VStr "mae"]]> ∅)).
Proof. vm_compute. reflexivity. Qed.

(** * Loops *)

Lemma for_each_app {S A B} (body : B → A → M S B) (acc : B) (xs ys : list A) (s : S) :
  for_each body acc (xs ++ ys) s
  = match for_each body acc xs s with
    | (Ret acc', s') => for_each body acc' ys s'
    | (Raise e, s') => (Raise e, s')
    end.
Proof.
  revert acc s. induction xs as [|x xs IH]; intros acc s; [done|].
  simpl. rewrite !bind_run. destruct (body acc x s) as [[acc'|e] s']; [|done].
  apply IH.
Qed.

Lemma for_each_cons {S A B} (body : B → A → M S B) (acc : B) (x : A) (xs : list A) :
  for_each body acc (x :: xs) = (acc' ← body acc x; for_each body acc' xs).
Proof. reflexivity. Qed.

(** * Further properties of the sequence windower *)

Section windowing_edges.
Context {elt layer params : Type}.
Implicit Types (X y : ndarray elt) (w : @world elt layer params).

Lemma py_range_nonpositive (n : Z) : (n ≤ 0)%Z → py_range n = [].
Proof. intros Hn. unfold py_range. by replace (Z.to_nat n) with 0 by lia. Qed.

(** X1: a window length that reaches the number of rows gives no window
    at all: both results are the empty 1-d array, and nothing is raised. *)
Theorem unroll_window_too_long X y (N : nat) (L : Z) w :
  np_len X = Ret N → np_len y = Ret N → (Z.of_nat N ≤ L)%Z →
  _unroll_array_to_sequence X y L w
  = (Ret (UnrollPair (NdArray [0] []) (NdArray [0] [])), w).
Proof.
  intros HX Hy HL. unfold _unroll_array_to_sequence. rewrite HX, Hy.
  unfold mbind, M_bind, lift. simpl.
  rewrite decide_False by (intros ?; done).
  by rewrite py_range_nonpositive by lia.
Qed.

Lemma rows_between_prefix X X' (n i L : nat) :
  nd_shape X' = nd_shape X →
  take (n * nd_size (tail (nd_shape X))) (nd_data X')
  = take (n * nd_size (tail (nd_shape X))) (nd_data X) →
  i + L ≤ n →
  rows_between X' i L = rows_between X i L.
Proof.
  intros Hs Hd Hle. unfold rows_between. rewrite Hs. f_equal.
  set (s := nd_size (tail (nd_shape X))) in *.
  rewrite !take_drop_commute.
  assert (Hmin : i * s + L * s = (i * s + L * s) `min` (n * s)) by nia.
  rewrite Hmin, <- !take_take. by rewrite Hd.
Qed.

(** X2: the last row of the feature table reaches no window: two
    feature tables of one shape that agree on all rows but the last are
    windowed alike, whatever the window length. *)
Theorem unroll_ignores_last_row X X' y (N L : nat) rx w :
  nd_shape X = S N :: rx → nd_shape X' = S N :: rx →
  take (N * nd_size rx) (nd_data X') = take (N * nd_size rx) (nd_data X) →
  np_len y = Ret (S N) →
  _unroll_array_to_sequence X' y (Z.of_nat L) w
  = _unroll_array_to_sequence X y (Z.of_nat L) w.
Proof.
  intros HX HX' Hd Hy.
  unfold np_len in Hy. destruct (nd_shape y) as [|m ry] eqn:Hsy; [done|].
  injection Hy as ->.
  destruct (decide (L < S N)) as [Hlt|Hge].
  - rewrite (unroll_run X' y (S N) L rx ry), (unroll_run X y (S N) L rx ry) by done.
    do 3 f_equal. unfold windows_of. f_equal.
    apply list_eq. intros j. rewrite !list_lookup_fmap.
    destruct (seq 0 (S N - L) !! j) as [i|] eqn:Hj; [|done]. simpl. f_equal.
    apply lookup_seq in Hj as [-> Hj].
    apply (rows_between_prefix X X' N); [congruence|by rewrite HX|lia].
  - unfold _unroll_array_to_sequence, np_len. rewrite HX, HX', Hsy.
    unfold mbind, M_bind, lift. cbv beta iota.
    rewrite !decide_False by (intros H; by apply H).
    by rewrite py_range_nonpositive by lia.
Qed.

Local Arguments _unroll_array_to_sequence : simpl never.

(** [split_X_to_sequencees] up to the assignment to the train attributes. *)
Lemma split_train_step Xn yt ux uy (L : Z) w :
  X_train_normalized (self w) = Some Xn → y_train (self w) = Some yt →
  _unroll_array_to_sequence Xn yt L w = (Ret (UnrollPair ux uy), w) →
  split_X_to_sequencees L w
  = (r ← call_unroll (X_test_normalized (self w)) (y_test (self w)) L;
     '(tx, ty) ← unpack_pair r;
     modify_self (set_test_unrolled tx ty))
      {| self := set_train_unrolled ux uy (self w); stdout := stdout w;
         calls := calls w; figures := figures w |}.
Proof.
  intros HX Hy Hrun. unfold split_X_to_sequencees, call_unroll at 1. run.
  rewrite HX, Hy. simpl. by rewrite Hrun.
Qed.

(** X3: with both splits normalized and loaded, equal row counts within
    each split and a window length below both, the four window batches
    are stored and every other attribute, the output and the call log
    stay as they were. *)
Theorem split_stores_four_batches Xn yt Xtn yte (N M L : nat) rx ry rtx rty w :
  X_train_normalized (self w) = Some Xn → y_train (self w) = Some yt →
  X_test_normalized (self w) = Some Xtn → y_test (self w) = Some yte →
  nd_shape Xn = N :: rx → nd_shape yt = N :: ry →
  nd_shape Xtn = M :: rtx → nd_shape yte = M :: rty →
  L < N → L < M →
  split_X_to_sequencees (Z.of_nat L) w
  = (Ret tt,
     {| self :=
          set_test_unrolled
            (stacked (windows_of Xtn L (M - L)) (L :: rtx))
            (stacked (windows_of yte L (M - L)) (L :: rty))
            (set_train_unrolled
               (stacked (windows_of Xn L (N - L)) (L :: rx))
               (stacked (windows_of yt L (N - L)) (L :: ry))
               (self w));
        stdout := stdout w; calls := calls w; figures := figures w |}).
Proof.
  intros HXn Hyt HXtn Hyte HsXn Hsyt HsXtn Hsyte HN HM.
  erewrite split_train_step; [|done|done|by apply (unroll_run Xn yt N L rx ry)].
  unfold call_unroll. simpl. rewrite HXtn, Hyte.
  rewrite bind_run, (unroll_run Xtn yte M L rtx rty) by done.
  reflexivity.
Qed.

(** X4: when the train split is windowed and the test split has
    differing row counts, the call raises [TypeError] with the train
    batches already stored and the test batches left as they were. *)
Theorem split_test_mismatch_keeps_train Xn yt Xtn yte (N L a b : nat) rx ry w :
  X_train_normalized (self w) = Some Xn → y_train (self w) = Some yt →
  X_test_normalized (self w) = Some Xtn → y_test (self w) = Some yte →
  nd_shape Xn = N :: rx → nd_shape yt = N :: ry → L < N →
  np_len Xtn = Ret a → np_len yte = Ret b → a ≠ b →
  split_X_to_sequencees (Z.of_nat L) w
  = (Raise TypeError,
     {| self :=
          set_train_unrolled
            (stacked (windows_of Xn L (N - L)) (L :: rx))
            (stacked (windows_of yt L (N - L)) (L :: ry))
            (self w);
        stdout := stdout w ++ [">>> X and y data should have same len..."];
        calls := calls w; figures := figures w |}).
Proof.
  intros HXn Hyt HXtn Hyte HsXn Hsyt HN Ha Hb Hne.
  erewrite split_train_step; [|done|done|by apply (unroll_run Xn yt N L rx ry)].
  unfold call_unroll. simpl. rewrite HXtn, Hyte.
  rewrite bind_run. unfold _unroll_array_to_sequence.
  rewrite Ha, Hb. unfold mbind, M_bind, lift. simpl.
  by rewrite decide_True.
Qed.

(** X5: called before the tables it reads exist, the split raises and
    changes nothing: [AttributeError] without train targets,
    [TypeError] with targets but without normalized features. *)
Theorem split_without_prerequisites (L : Z) w :
  (y_train (self w) = None →
   split_X_to_sequencees L w = (Raise AttributeError, w))
  ∧ (is_Some (y_train (self w)) → X_train_normalized (self w) = None →
     split_X_to_sequencees L w = (Raise TypeError, w)).
Proof.
  split.
  - intros Hy. unfold split_X_to_sequencees, call_unroll. run. by rewrite Hy.
  - intros [yt Hy] HX. unfold split_X_to_sequencees, call_unroll. run.
    by rewrite Hy, HX.
Qed.
End windowing_edges.

(** * Further properties of the default merge *)

Section default_merge_more.
Implicit Types (D defaults : gmap string pyval) (k : string) (v : pyval).

(** X6: merging against a dict of defaults is the left-biased union of
    the two dicts: no key is dropped, none of [D] is overwritten, and
    the order in which the defaults are visited does not matter. *)
Theorem set_dict_default_is_union D defaults :
  _helpers_set_dict_default D (KeysDict defaults) = D ∪ defaults.
Proof.
  apply map_eq. intros k. rewrite set_dict_default_lookup, lookup_union.
  destruct (D !! k), (defaults !! k); done.
Qed.

(** X7: with a list of keys, every listed key missing from the dict is
    bound to [None], bindings already there are kept (also of listed
    keys), unlisted keys are not added, and a second pass changes
    nothing. *)
Theorem set_dict_default_list (l : list string) D :
  (∀ k v, D !! k = Some v →
          _helpers_set_dict_default D (KeysList l) !! k = Some v)
  ∧ (∀ k, D !! k = None → k ∈ l →
          _helpers_set_dict_default D (KeysList l) !! k = Some VNone)
  ∧ (∀ k, D !! k = None → k ∉ l →
          _helpers_set_dict_default D (KeysList l) !! k = None)
  ∧ _helpers_set_dict_default (_helpers_set_dict_default D (KeysList l)) (KeysList l)
    = _helpers_set_dict_default D (KeysList l).
Proof.
  repeat split.
  - intros k v Hk. by rewrite set_dict_default_list_lookup, Hk.
  - intros k Hk Hin. by rewrite set_dict_default_list_lookup, Hk, decide_True.
  - intros k Hk Hin. by rewrite set_dict_default_list_lookup, Hk, decide_False.
  - apply map_eq. intros k. rewrite !set_dict_default_list_lookup.
    destruct (D !! k); [done|]. by destruct (decide (k ∈ l)).
Qed.

End default_merge_more.

(** * Further properties of the model assembler *)

Section assembler_more.
Context {elt layer params : Type} (lib : @Library elt layer params).
Implicit Types (w : @world elt layer params) (template : list layer).


Lemma model_combine_reaches_config template cm cd metrics verbose w :
  layers_accepted lib [] template →
  model_combine lib template cm cd metrics verbose w
  = (model_compile lib (compile_config_used cm cd);;
     print ">>> model compiled";;
     (if verbose then model_summary lib else mret tt);;
     mret true) (assembled template w).
Proof.
  intros Hacc. rewrite model_combine_reaches_compile by done.
  unfold compile_config_used. by rewrite compile_defaults_merged.
Qed.



(** X10: when Keras refuses the configuration, the call raises that
    fault: the model holds the whole template but stays uncompiled, and
    the line [>>> model compiled] is not printed. *)
Theorem model_combine_compile_refused template cm cd cfg e metrics verbose w :
  layers_accepted lib [] template →
  compile_config_used cm cd = Some cfg →
  keras_compile lib template cfg = Raise e →
  model_combine lib template cm cd metrics verbose w
  = (Raise e,
     {| self := set_model (Some {| layers := template; compiled := None |}) (self w);
        stdout := stdout w;
        calls := calls w ++ CallSequential :: (CallAdd <$> template)
                   ++ [CallCompile cfg];
        figures := figures w |}).
Proof.
  intros Hacc Hcfg Hcomp. rewrite model_combine_reaches_config, Hcfg by done.
  unfold model_compile, assembled. run. rewrite Hcomp. simpl.
  by rewrite <- !app_assoc.
Qed.
End assembler_more.

(** * Further properties of the normalizer *)

Section normalizer_more.
Context {elt layer params : Type} (lib : @Library elt layer params).
Implicit Types (w : @world elt layer params).

(** X11: whatever the scaler answers, [normalize_X] writes the scaler
    and the two normalized tables only: the four loaded tables, the
    window batches, the model, the output and the figures stay. *)
Theorem normalize_frame scaler_arg w :
  let w' := (normalize_X lib scaler_arg w).2 in
  X_train (self w') = X_train (self w) ∧ X_test (self w') = X_test (self w)
  ∧ y_train (self w') = y_train (self w) ∧ y_test (self w') = y_test (self w)
  ∧ X_train_unrolled (self w') = X_train_unrolled (self w)
  ∧ X_test_unrolled (self w') = X_test_unrolled (self w)
  ∧ y_train_unrolled (self w') = y_train_unrolled (self w)
  ∧ y_test_unrolled (self w') = y_test_unrolled (self w)
  ∧ model (self w') = model (self w)
  ∧ stdout w' = stdout w ∧ figures w' = figures w.
Proof.
  unfold normalize_X, scaler_fit_transform, scaler_transform. run.
  repeat (case_match; simpl in *; simplify_eq); done.
Qed.

(** X12: when fitting raises, the call raises that fault after the old
    scaler has been replaced by an unfitted one; both normalized tables
    keep what they held, and the test table is not looked at. *)
Theorem normalize_fit_fails scaler_arg e w :
  let cls := default (StandardScaler lib) scaler_arg in
  sc_fit cls (X_train (self w)) = Raise e →
  normalize_X lib scaler_arg w
  = (Raise e,
     {| self := set_scaler (Some {| scaler_class := cls; fitted := None |}) (self w);
        stdout := stdout w;
        calls := calls w ++ [CallFitTransform (X_train (self w))];
        figures := figures w |}).
Proof.
  intros cls Hfit. unfold normalize_X, scaler_fit_transform. run.
  fold cls. by rewrite Hfit.
Qed.

(** X13: when the test table cannot be transformed, the call raises
    that fault with the training side already replaced: the new scaler
    and the new normalized training table are stored next to the old
    normalized test table. *)
Theorem normalize_test_transform_fails scaler_arg p tr e w :
  let cls := default (StandardScaler lib) scaler_arg in
  sc_fit cls (X_train (self w)) = Ret p →
  sc_apply cls p (X_train (self w)) = Ret tr →
  sc_apply cls p (X_test (self w)) = Raise e →
  normalize_X lib scaler_arg w
  = (Raise e,
     {| self := set_X_train_normalized (Some tr)
                  (set_scaler (Some {| scaler_class := cls; fitted := Some p |})
                     (self w));
        stdout := stdout w;
        calls := calls w ++ [CallFitTransform (X_train (self w));
                             CallTransform (X_test (self w))];
        figures := figures w |}).
Proof.
  intros cls Hfit Htr Hte. unfold normalize_X, scaler_fit_transform, scaler_transform.
  run. fold cls. rewrite Hfit. simpl. rewrite Htr. simpl. rewrite Hte. simpl.
  by rewrite <- app_assoc.
Qed.

(** X14: normalizing twice with the same scaler class ends in the same
    instance and the same result as normalizing once. *)
Theorem normalize_twice scaler_arg w :
  let r1 := normalize_X lib scaler_arg w in
  let r2 := normalize_X lib scaler_arg r1.2 in
  r2.1 = r1.1 ∧ self r2.2 = self r1.2.
Proof.
  unfold normalize_X, scaler_fit_transform, scaler_transform. run.
  destruct (sc_fit _ (X_train (self w))) as [p|e] eqn:Hfit; simpl;
    [|by rewrite Hfit].
  destruct (sc_apply _ p (X_train (self w))) as [tr|e] eqn:Htr; simpl;
    [|by rewrite Hfit; simpl; rewrite Htr].
  destruct (sc_apply _ p (X_test (self w))) as [te|e] eqn:Hte; simpl;
    rewrite Hfit; simpl; rewrite Htr; simpl; by rewrite Hte.
Qed.
End normalizer_more.

(** * Further properties of the training orchestrator *)

Section fit_more.
Context {elt layer params : Type} (lib : @Library elt layer params).
Implicit Types (w : @world elt layer params).

(** X15: under every setting of its arguments and whatever the
    libraries answer, [model_fit] leaves every attribute of the instance
    as it was; the training history is stored nowhere. *)
Theorem fit_writes_no_attribute n_epoch n_seq n_steps batch_size verbose
    print_charts use_tensorboard return_results w :
  self (model_fit lib n_epoch n_seq n_steps batch_size verbose
          print_charts use_tensorboard return_results w).2 = self w.
Proof.
  unfold model_fit, plot_loss_chart, attribute, reshape_for_fit, subscript, local.
  run.
  repeat (case_match; simpl in *; simplify_eq; try done).
Qed.


Local Arguments reshape_for_fit : simpl never.
Local Arguments plot_loss_chart : simpl never.

Lemma reshape_for_fit_run (a : ndarray elt) (k L F ns nst : nat) w :
  nd_shape a = [k; L; F] → ns * nst = L →
  reshape_for_fit (Some a) ns nst F w
  = (Ret (NdArray [k; ns; nst; F] (nd_data a)), w).
Proof.
  intros Ha Hm. unfold reshape_for_fit, np_shape_at. rewrite Ha. run.
  rewrite np_reshape_shape; [done|]. rewrite Ha. simpl. subst L. rewrite !Nat.mul_1_r, (Nat.mul_assoc ns). done.
Qed.

Lemma reshape_for_fit_mismatch (a : ndarray elt) (k L F ns nst : nat) w :
  nd_shape a = [k; L; F] → 0 < k → 0 < F → ns * nst ≠ L →
  reshape_for_fit (Some a) ns nst F w = (Raise ValueError, w).
Proof.
  intros Ha Hk HF Hm. unfold reshape_for_fit, np_shape_at. rewrite Ha. run.
  unfold np_reshape. rewrite decide_False; [done|]. rewrite Ha. simpl.
  rewrite !Nat.mul_1_r, (Nat.mul_assoc ns). intros H.
  apply Nat.mul_cancel_l in H; [|lia]. apply Nat.mul_cancel_r in H; [done|lia].
Qed.

(** The statements of [model_fit] up to the first reshape, for an
    instance that has a model, the training table and the train targets. *)
Lemma fit_reaches_reshape m X (N F : nat) yu n_epoch n_seq n_steps batch_size verbose
    print_charts use_tensorboard return_results w :
  model (self w) = Some m →
  X_train (self w) = Some X → nd_shape X = [N; F] →
  y_train_unrolled (self w) = Some yu →
  model_fit lib n_epoch n_seq n_steps batch_size verbose
    print_charts use_tensorboard return_results w
  = (x_train ← reshape_for_fit (X_train_unrolled (self w))
                 (default 2 n_seq) (default 2 n_steps) F;
     let x_test := X_test_unrolled (self w) in
     y_test ← attribute (y_test_unrolled (self w));
     x_test ← reshape_for_fit x_test (default 2 n_seq) (default 2 n_steps) F;
     let args := {| fit_x := x_train; fit_y := yu;
                    fit_epochs := default 10%Z n_epoch;
                    fit_batch_size := batch_size;
                    fit_validation_data := (x_test, y_test);
                    fit_verbose := verbose |} in
     log (CallFit args);;
     history ← lift (keras_fit lib m args);
     val_loss ←
       (if print_charts && negb use_tensorboard then
          val_loss ← plot_loss_chart lib history; mret (Some val_loss)
        else mret None);
     if return_results then
       v ← local val_loss; mret (FitArray v)
     else mret FitNone) w.
Proof.
  intros Hm HX HsX Hyu. unfold model_fit, attribute, np_shape_at. run.
  rewrite Hm, HX. simpl. rewrite HsX. simpl. by rewrite Hyu.
Qed.

(** X17: when the product [n_seq * n_steps] differs from the window
    length of the stored batch, the call raises [ValueError] at the
    reshape: Keras' fit is not entered and nothing changes. *)
Theorem fit_reshape_mismatch m X xu yu (N F k L : nat) n_epoch n_seq n_steps
    batch_size verbose print_charts use_tensorboard return_results w :
  model (self w) = Some m →
  X_train (self w) = Some X → nd_shape X = [N; F] →
  X_train_unrolled (self w) = Some xu → nd_shape xu = [k; L; F] →
  y_train_unrolled (self w) = Some yu →
  0 < k → 0 < F → default 2 n_seq * default 2 n_steps ≠ L →
  model_fit lib n_epoch n_seq n_steps batch_size verbose
    print_charts use_tensorboard return_results w
  = (Raise ValueError, w).
Proof.
  intros Hm HX HsX Hxu Hsxu Hyu Hk HF Hne.
  erewrite fit_reaches_reshape by done. rewrite Hxu.
  rewrite bind_run. by erewrite reshape_for_fit_mismatch.
Qed.

(** X18: a model alone is not enough: without the training table, or
    with it but without stored train windows, the call raises
    [AttributeError] before Keras' fit, and nothing changes. *)
Theorem fit_without_windows m n_epoch n_seq n_steps batch_size verbose
    print_charts use_tensorboard return_results w :
  model (self w) = Some m →
  X_train (self w) = None
  ∨ (∃ X N F, X_train (self w) = Some X ∧ nd_shape X = [N; F]
              ∧ (y_train_unrolled (self w) = None
                 ∨ X_train_unrolled (self w) = None)) →
  model_fit lib n_epoch n_seq n_steps batch_size verbose
    print_charts use_tensorboard return_results w
  = (Raise AttributeError, w).
Proof.
  intros Hm [HX|(X & N & F & HX & HsX & Hmiss)].
  - unfold model_fit, attribute. run. by rewrite Hm, HX.
  - destruct (y_train_unrolled (self w)) as [yu|] eqn:Hyu.
    + destruct Hmiss as [?|Hxu]; [done|].
      erewrite fit_reaches_reshape by done. by rewrite Hxu.
    + unfold model_fit, attribute, np_shape_at. run.
      rewrite Hm, HX. simpl. rewrite HsX. simpl. by rewrite Hyu.
Qed.

(** X19: with charts and return flag off, batches of matching shapes
    and a training run that Keras completes, the call returns [None]
    after one fit call: the batches are handed over with their elements
    in the stored order under the shape (windows, n_seq, n_steps,
    features), the targets unreshaped, the test batches as validation
    data, the epochs defaulting to 10. *)
Theorem fit_quiet_run m X xu yu xt yt (N F k kt L : nat) history n_epoch n_seq n_steps
    batch_size verbose use_tensorboard w :
  model (self w) = Some m →
  X_train (self w) = Some X → nd_shape X = [N; F] →
  X_train_unrolled (self w) = Some xu → nd_shape xu = [k; L; F] →
  y_train_unrolled (self w) = Some yu →
  X_test_unrolled (self w) = Some xt → nd_shape xt = [kt; L; F] →
  y_test_unrolled (self w) = Some yt →
  default 2 n_seq * default 2 n_steps = L →
  let args :=
    {| fit_x := NdArray [k; default 2 n_seq; default 2 n_steps; F] (nd_data xu);
       fit_y := yu;
       fit_epochs := default 10%Z n_epoch;
       fit_batch_size := batch_size;
       fit_validation_data :=
         (NdArray [kt; default 2 n_seq; default 2 n_steps; F] (nd_data xt), yt);
       fit_verbose := verbose |} in
  keras_fit lib m args = Ret history →
  model_fit lib n_epoch n_seq n_steps batch_size verbose
    false use_tensorboard false w
  = (Ret FitNone,
     {| self := self w; stdout := stdout w;
        calls := calls w ++ [CallFit args]; figures := figures w |}).
Proof.
  intros Hm HX HsX Hxu Hsxu Hyu Hxt Hsxt Hyt HL args Hfit.
  erewrite fit_reaches_reshape by done. rewrite Hxu, Hxt, Hyt.
  rewrite bind_run. erewrite reshape_for_fit_run by done. cbv beta iota.
  unfold attribute. rewrite bind_run. unfold mret at 1, M_ret at 1. cbv beta iota.
  rewrite bind_run. erewrite reshape_for_fit_run by done. cbv beta iota zeta.
  fold args. run. by rewrite Hfit.
Qed.

(** X20: with charts asked for (and TensorBoard off) the failure of the
    chart formatter comes last: Keras' fit has run to its end, a figure
    with the two loss curves, legend, hidden spines and grid is left
    behind without title, axis labels or annotations, and the call
    raises [NameError] whatever the return flag says. *)
Theorem fit_with_charts_trains_then_raises m X xu yu xt yt (N F k kt L : nat)
    history losses val_losses n_epoch n_seq n_steps batch_size verbose
    return_results w :
  model (self w) = Some m →
  X_train (self w) = Some X → nd_shape X = [N; F] →
  X_train_unrolled (self w) = Some xu → nd_shape xu = [k; L; F] →
  y_train_unrolled (self w) = Some yu →
  X_test_unrolled (self w) = Some xt → nd_shape xt = [kt; L; F] →
  y_test_unrolled (self w) = Some yt →
  default 2 n_seq * default 2 n_steps = L →
  let args :=
    {| fit_x := NdArray [k; default 2 n_seq; default 2 n_steps; F] (nd_data xu);
       fit_y := yu;
       fit_epochs := default 10%Z n_epoch;
       fit_batch_size := batch_size;
       fit_validation_data :=
         (NdArray [kt; default 2 n_seq; default 2 n_steps; F] (nd_data xt), yt);
       fit_verbose := verbose |} in
  keras_fit lib m args = Ret history →
  history !! "loss" = Some losses → history !! "val_loss" = Some val_losses →
  model_fit lib n_epoch n_seq n_steps batch_size verbose
    true false return_results w
  = (Raise NameError,
     {| self := self w; stdout := stdout w;
        calls := calls w ++ [CallFit args; CallSubplots];
        figures := figures w ++
          [{| ax_lines := [(np_array1 losses, "train_loss", "o");
                           (np_array1 val_losses, "test_loss", "o")];
              ax_legend_loc := Some 3%Z;
              ax_spine_right_visible := false; ax_spine_top_visible := false;
              ax_grid := Some (true, "0.90"); ax_texts := []; ax_ylim := None;
              ax_title := None; ax_xlabel := None; ax_ylabel := None |}] |}).
Proof.
  intros Hm HX HsX Hxu Hsxu Hyu Hxt Hsxt Hyt HL args Hfit Hloss Hval.
  erewrite fit_reaches_reshape by done. rewrite Hxu, Hxt, Hyt.
  rewrite bind_run. erewrite reshape_for_fit_run by done. cbv beta iota.
  unfold attribute. rewrite bind_run. unfold mret at 1, M_ret at 1. cbv beta iota.
  rewrite bind_run. erewrite reshape_for_fit_run by done. cbv beta iota zeta.
  fold args. rewrite bind_run. unfold log at 1, modify at 1. cbv beta iota.
  rewrite bind_run. unfold lift at 1. rewrite Hfit. cbv beta iota.
  change (true && negb false) with true. cbv iota. rewrite bind_run, bind_run.
  unfold plot_loss_chart, subscript. rewrite Hloss, Hval.
  rewrite bind_run. unfold mret at 1, M_ret at 1. cbv beta iota zeta.
  rewrite bind_run. unfold mret at 1, M_ret at 1. cbv beta iota zeta.
  rewrite bind_run, plt_subplots_run. cbv beta iota.
  do 2 (rewrite bind_run, with_ax_run; cbv beta iota).
  rewrite bind_run, set_ax_properties_run. cbv beta iota. simpl.
  f_equal. f_equal.
  - by rewrite <- app_assoc.
  - rewrite <- (Nat.add_0_r (length (figures w))).
    by rewrite !alter_app_r.
Qed.
End fit_more.

(** * Further properties of the chart helpers *)

Lemma list_alter_pointwise {A} (f g : A → A) (i : nat) (l : list A) :
  (∀ x, f x = g x) → alter f i l = alter g i l.
Proof.
  intros Hfg. revert i. induction l as [|x l IH]; intros [|i]; simpl; [done..| |].
  - by rewrite Hfg.
  - f_equal. apply IH.
Qed.

Section chart_more.
Context {elt layer params : Type} (lib : @Library elt layer params).
Implicit Types (w : @world elt layer params).


Lemma label_loop (r : nat) (sh : elt) (vals : list elt) : ∀ (start : nat) w,
  for_each (λ _ item,
      with_ax (Some r) (ax_text item.1 (elt_add lib item.2 sh)
                          (format_4f lib item.2) "bold"))
    tt (zip (seq start (length vals)) vals) w
  = (Ret tt,
     {| self := self w; stdout := stdout w; calls := calls w;
        figures := alter (add_texts (annotations lib start vals sh)) r (figures w) |}).
Proof.
  induction vals as [|v vals IH]; intros start w.
  - simpl. unfold mret, M_ret. rewrite list_alter_id.
    + by destruct w.
    + intros [] . unfold add_texts, annotations. simpl. by rewrite app_nil_r.
  - change (zip (seq start (length (v :: vals))) (v :: vals))
      with ((start, v) :: zip (seq (S start) (length vals)) vals).
    rewrite for_each_cons, bind_run. unfold with_ax at 1, modify at 1.
    cbv beta iota. rewrite IH. simpl. do 2 f_equal.
    rewrite list_alter_alter_eq. apply list_alter_pointwise.
    intros a. unfold add_texts, ax_text, annotations. simpl.
    by rewrite <- app_assoc.
Qed.

(** X21: called on a surface with a 1-d series and a numeric shift, the
    label helper appends one bold annotation per value, in order: value
    [i] at x-position [i], height value-plus-shift, text the value with
    four decimals; the rest of the surface and every other surface stay. *)
Theorem label_series_annotates (r : nat) (series : ndarray elt) (n : nat) (sh : elt) w :
  nd_shape series = [n] →
  _plt_label_Series lib (Some r) (PSeries series) (PNum sh) w
  = (Ret tt,
     {| self := self w; stdout := stdout w; calls := calls w;
        figures :=
          alter (add_texts (annotations lib 0 (nd_data series) sh)) r (figures w) |}).
Proof.
  intros Hs. unfold _plt_label_Series, label_values. rewrite Hs.
  rewrite bind_run. unfold lift at 1. cbv beta iota. destruct n; apply label_loop.
Qed.

(** X22: with no value to label the helper returns without looking
    at the shift or the surface; with values to label, a shift that is
    [None] or a string raises [TypeError] on a given surface, and a
    missing surface raises [AttributeError] under a numeric shift, in
    both cases before anything is drawn. *)
Theorem label_series_edges (series : ndarray elt) (n : nat) w :
  nd_shape series = [n] →
  (nd_data series = [] →
   ∀ ax shift, _plt_label_Series lib ax (PSeries series) shift w = (Ret tt, w))
  ∧ (nd_data series ≠ [] →
     ∀ r shift, shift = PNone ∨ (∃ s, shift = PStr s) →
       _plt_label_Series lib (Some r) (PSeries series) shift w
       = (Raise TypeError, w))
  ∧ (nd_data series ≠ [] →
     ∀ sh, _plt_label_Series lib None (PSeries series) (PNum sh) w
           = (Raise AttributeError, w)).
Proof.
  intros Hs. unfold _plt_label_Series, label_values. rewrite Hs.
  assert (Hn : match n with 0 | _ => @Ret (list elt) (nd_data series) end
               = Ret (nd_data series)) by (by destruct n).
  rewrite Hn. clear Hn.
  destruct (nd_data series) as [|v vals]; (split; [|split]); try done.
  - intros _ r shift Hsh. rewrite bind_run. unfold lift at 1. cbv beta iota.
    simpl. rewrite bind_run. by destruct Hsh as [->|[s ->]].
Qed.
End chart_more.

(** * The loader *)


Lemma py_split_nonempty c s : py_split c s ≠ [].
Proof.
  destruct s as [|a s]; simpl; [done|].
  destruct (Ascii.eqb a c); [done|]. by destruct (py_split c s).
Qed.

Lemma py_split_lacks c s : lacks c s = true → py_split c s = [s].
Proof.
  induction s as [|a s IH]; simpl; [done|].
  intros [Ha Hs]%andb_true_iff. apply negb_true_iff in Ha. rewrite Ha.
  by rewrite IH.
Qed.

(** Splitting what is joined by the separator. *)
Lemma py_split_join c s t :
  py_split c (s +:+ String c t) = py_split c s ++ py_split c t.
Proof.
  induction s as [|a s IH]; simpl.
  - by rewrite Ascii.eqb_refl.
  - destruct (Ascii.eqb a c); rewrite IH; [done|].
    pose proof (py_split_nonempty c s). by destruct (py_split c s).
Qed.

(** X23: a table is recorded under the part of the path between its
    last slash and the first dot after it. *)
Theorem file_name_of_path (dir base ext : string) :
  lacks slash base = true → lacks dot base = true → lacks slash ext = true →
  file_name_of (dir +:+ String slash (base +:+ String dot ext)) = base
  ∧ file_name_of (base +:+ String dot ext) = base
  ∧ file_name_of base = base.
Proof.
  intros Hb1 Hb2 He.
  assert (Hbe : lacks slash (base +:+ String dot ext) = true).
  { clear Hb2. induction base as [|a b IH]; simpl in *; [done|].
    apply andb_true_iff in Hb1 as [-> Hb]. by rewrite IH. }
  unfold file_name_of. repeat split.
  - rewrite py_split_join, (py_split_lacks slash _ Hbe), last_snoc. simpl.
    rewrite py_split_join, (py_split_lacks dot _ Hb2). done.
  - rewrite (py_split_lacks slash _ Hbe). simpl.
    rewrite py_split_join, (py_split_lacks dot _ Hb2). done.
  - by rewrite (py_split_lacks slash _ Hb1); simpl; rewrite (py_split_lacks dot _ Hb2).
Qed.

Section loader_facts.
Context {elt layer params : Type}.
Variable glob_glob : string → list string.
Variable read_csv : string → outcome (ndarray elt).
Implicit Types (st : @loader_state elt layer params) (p : string).

Lemma load_split_run (t : ndarray elt)
    (set : option (ndarray elt) → NeuralManager → NeuralManager) p name st :
  read_csv p = Ret t →
  load_split read_csv set p name st
  = (Ret tt,
     {| ld_self := set (Some t) (ld_self st);
        ld_train_test_init := <[name := true]> (ld_train_test_init st);
        ld_stdout := ld_stdout st; ld_reads := ld_reads st ++ [p] |}).
Proof. intros Hread. unfold load_split. run. by rewrite Hread. Qed.

Lemma load_split_fails e
    (set : option (ndarray elt) → NeuralManager → NeuralManager) p name st :
  read_csv p = Raise e →
  load_split read_csv set p name st
  = (Raise e,
     {| ld_self := ld_self st; ld_train_test_init := ld_train_test_init st;
        ld_stdout := ld_stdout st; ld_reads := ld_reads st ++ [p] |}).
Proof. intros Hread. unfold load_split. run. by rewrite Hread. Qed.

Lemma skip_run st : (mret tt : M loader_state unit) st = (Ret tt, st).
Proof. reflexivity. Qed.

Lemma markers_in_nil name :
  markers_in name = []
  ↔ py_in "X_train" name = false ∧ py_in "X_test" name = false
    ∧ py_in "y_train" name = false ∧ py_in "y_test" name = false.
Proof.
  unfold markers_in, markers. rewrite !filter_cons, filter_nil.
  destruct (py_in "X_train" name), (py_in "X_test" name),
    (py_in "y_train" name), (py_in "y_test" name); simpl;
    (split; [intros H; try discriminate H; done
            |intros (? & ? & ? & ?); congruence]).
Qed.

Lemma markers_in_cases name :
  markers_in name
  = (if py_in "X_train" name then ["X_train"] else [])
    ++ (if py_in "X_test" name then ["X_test"] else [])
    ++ (if py_in "y_train" name then ["y_train"] else [])
    ++ (if py_in "y_test" name then ["y_test"] else []).
Proof.
  unfold markers_in, markers. rewrite !filter_cons, filter_nil.
  by destruct (py_in "X_train" name), (py_in "X_test" name),
    (py_in "y_train" name), (py_in "y_test" name).
Qed.

Lemma load_file_run (t : ndarray elt) p st :
  (markers_in (file_name_of p) ≠ [] → read_csv p = Ret t) →
  load_file read_csv p st = (Ret tt, loaded_file t p st).
Proof.
  intros Hread. unfold load_file, loaded_file. cbv zeta.
  rewrite markers_in_cases. rewrite markers_in_nil in Hread.
  destruct st as [s init out reads].
  destruct (py_in "X_train" (file_name_of p)) eqn:H1;
  destruct (py_in "X_test" (file_name_of p)) eqn:H2;
  destruct (py_in "y_train" (file_name_of p)) eqn:H3;
  destruct (py_in "y_test" (file_name_of p)) eqn:H4.
  all: try (assert (Hr : read_csv p = Ret t)
              by (apply Hread; by intros (? & ? & ? & ?))).
  all: repeat (rewrite bind_run;
               first [ rewrite (load_split_run t) by exact Hr
                     | rewrite skip_run ];
               cbv beta iota).
  all: first [ rewrite (load_split_run t) by exact Hr | rewrite skip_run ].
  all: cbn [ld_self ld_train_test_init ld_stdout ld_reads].
  all: rewrite ?insert_insert_eq.
  all: cbn [fmap list_fmap app]; rewrite <- ?app_assoc; cbn [app].
  all: rewrite ?app_nil_r.
  all: try (rewrite bool_decide_eq_false_2 by done).
  all: try (rewrite bool_decide_eq_true_2 by done).
  all: reflexivity.
Qed.

Lemma load_loop tables paths : ∀ st,
  readable read_csv tables paths →
  for_each (λ _ p, load_file read_csv p) tt paths st
  = (Ret tt, loaded_files tables paths st).
Proof.
  induction paths as [|p paths IH]; intros st Hread; [done|].
  rewrite for_each_cons, bind_run, (load_file_run (tables p)).
  - apply IH. intros q Hq. apply Hread. by right.
  - apply Hread. by left.
Qed.

Lemma loaded_files_snoc tables paths p st :
  loaded_files tables (paths ++ [p]) st
  = loaded_file (tables p) p (loaded_files tables paths st).
Proof. unfold loaded_files. by rewrite foldl_app. Qed.

Lemma last_with_snoc marker paths p :
  last_with marker (paths ++ [p])
  = if py_in marker (file_name_of p) then Some p else last_with marker paths.
Proof.
  unfold last_with. rewrite filter_app, filter_cons, filter_nil.
  destruct (py_in marker (file_name_of p)); simpl.
  - by rewrite last_snoc.
  - by rewrite app_nil_r.
Qed.

Lemma loaded_files_spec tables paths st :
  let st' := loaded_files tables paths st in
  X_train (ld_self st') = pick tables "X_train" paths (X_train (ld_self st))
  ∧ X_test (ld_self st') = pick tables "X_test" paths (X_test (ld_self st))
  ∧ y_train (ld_self st') = pick tables "y_train" paths (y_train (ld_self st))
  ∧ y_test (ld_self st') = pick tables "y_test" paths (y_test (ld_self st))
  ∧ (∀ k, ld_train_test_init st' !! k
          = if bool_decide (k ∈ recorded paths) then Some true
            else ld_train_test_init st !! k)
  ∧ ld_reads st' = ld_reads st ++ opened paths
  ∧ ld_stdout st' = ld_stdout st
  ∧ X_train_normalized (ld_self st') = X_train_normalized (ld_self st)
  ∧ X_test_normalized (ld_self st') = X_test_normalized (ld_self st)
  ∧ X_train_unrolled (ld_self st') = X_train_unrolled (ld_self st)
  ∧ X_test_unrolled (ld_self st') = X_test_unrolled (ld_self st)
  ∧ y_train_unrolled (ld_self st') = y_train_unrolled (ld_self st)
  ∧ y_test_unrolled (ld_self st') = y_test_unrolled (ld_self st)
  ∧ model (ld_self st') = model (ld_self st)
  ∧ scaler (ld_self st') = scaler (ld_self st).
Proof.
  induction paths as [|p paths IH] using rev_ind.
  - simpl. unfold pick, last_with, recorded, opened. simpl.
    rewrite app_nil_r. repeat split; done.
  - rewrite loaded_files_snoc. simpl in *.
    destruct IH as (I1 & I2 & I3 & I4 & I5 & I6 & I7 & I8 & I9 & I10 & I11
                    & I12 & I13 & I14 & I15).
    unfold pick in *. rewrite !last_with_snoc.
    unfold recorded, opened in *.
    rewrite filter_app, fmap_app, bind_app, filter_cons, filter_nil. simpl.
    rewrite app_nil_r, app_assoc, <- I6.
    destruct (decide (markers_in (file_name_of p) = [])) as [Hnil|Hsome].
    + rewrite bool_decide_eq_true_2 by done. rewrite ?Hnil.
      apply markers_in_nil in Hnil as (-> & -> & -> & ->). simpl.
      rewrite ?app_nil_r. repeat split; done.
    + rewrite bool_decide_eq_false_2 by done. rewrite decide_True by done. simpl.
      assert (Hk : ∀ k, <[file_name_of p:=true]>
                          (ld_train_test_init (loaded_files tables paths st)) !! k
                = if bool_decide
                       (k ∈ (file_name_of <$>
                             filter (λ p0, markers_in (file_name_of p0) ≠ []) paths)
                            ++ [file_name_of p])
                  then Some true else ld_train_test_init st !! k).
      { intros k. destruct (decide (file_name_of p = k)) as [->|Hne].
        - rewrite lookup_insert_eq, bool_decide_eq_true_2; [done|].
          apply elem_of_app. right. by left.
        - rewrite lookup_insert_ne, I5 by done.
          do 2 case_bool_decide; try done; exfalso.
          + match goal with H : ¬ _ |- _ => apply H end.
            apply elem_of_app. by left.
          + match goal with H : _ ∈ _ ++ _ |- _ =>
              apply elem_of_app in H as [?|?%list_elem_of_singleton] end; done. }
      destruct (py_in "X_train" (file_name_of p)),
        (py_in "X_test" (file_name_of p)),
        (py_in "y_train" (file_name_of p)),
        (py_in "y_test" (file_name_of p)); simpl; repeat split;
        first [done | exact Hk].
Qed.

Lemma init_reaches_loop (dir pattern : string) st :
  os_path_join (Some dir) "*.csv" = Ret pattern →
  __init__ glob_glob read_csv (Some dir) st
  = (for_each (λ _ p, load_file read_csv p) tt (glob_glob pattern);;
     modify (λ st, {| ld_self := ld_self st;
                      ld_train_test_init := ld_train_test_init st;
                      ld_stdout := ld_stdout st
                        ++ [(">>> train-test inited: ", ld_train_test_init st)];
                      ld_reads := ld_reads st |}))
      {| ld_self := init_manager; ld_train_test_init := ∅;
         ld_stdout := ld_stdout st; ld_reads := ld_reads st |}.
Proof.
  intros Hjoin. unfold __init__, _init_train_test_data.
  rewrite bind_run. unfold modify at 1. cbv beta iota.
  rewrite bind_run. unfold lift at 1. by rewrite Hjoin.
Qed.

(** X24: over a directory whose marked files all parse, the
    constructor leaves in each split the table of the last listed file
    whose name carries that split's marker ([None] without such a file);
    a file is opened once for every marker in its name, files without a
    marker are not opened, and nothing else is set. *)
Theorem init_loads_last_match (dir pattern : string) tables st :
  os_path_join (Some dir) "*.csv" = Ret pattern →
  readable read_csv tables (glob_glob pattern) →
  let paths := glob_glob pattern in
  ∃ st',
    __init__ glob_glob read_csv (Some dir) st = (Ret tt, st')
    ∧ X_train (ld_self st') = tables <$> last_with "X_train" paths
    ∧ X_test (ld_self st') = tables <$> last_with "X_test" paths
    ∧ y_train (ld_self st') = tables <$> last_with "y_train" paths
    ∧ y_test (ld_self st') = tables <$> last_with "y_test" paths
    ∧ ld_reads st' = ld_reads st ++ opened paths
    ∧ X_train_normalized (ld_self st') = None
    ∧ X_test_normalized (ld_self st') = None
    ∧ X_train_unrolled (ld_self st') = None
    ∧ X_test_unrolled (ld_self st') = None
    ∧ y_train_unrolled (ld_self st') = None
    ∧ y_test_unrolled (ld_self st') = None
    ∧ model (ld_self st') = None ∧ scaler (ld_self st') = None.
Proof.
  intros Hjoin Hread paths. eexists.
  rewrite (init_reaches_loop dir pattern) by done.
  rewrite bind_run, (load_loop tables) by done. split; [reflexivity|].
  simpl.
  pose proof (loaded_files_spec tables paths
    {| ld_self := init_manager; ld_train_test_init := ∅;
       ld_stdout := ld_stdout st; ld_reads := ld_reads st |}) as Hspec.
  simpl in Hspec. unfold pick in Hspec.
  destruct Hspec as (I1 & I2 & I3 & I4 & I5 & I6 & I7 & I8 & I9 & I10 & I11
                     & I12 & I13 & I14 & I15).
  fold paths. rewrite I1, I2, I3, I4.
  repeat split; try done; by destruct (last_with _ paths).
Qed.

(** X25: after such a construction [_train_test_init] binds exactly the
    names of the listed files that carry a marker, each to [True], and
    one line is printed that shows this dict. *)
Theorem init_records_file_names (dir pattern : string) tables st :
  os_path_join (Some dir) "*.csv" = Ret pattern →
  readable read_csv tables (glob_glob pattern) →
  let st' := (__init__ glob_glob read_csv (Some dir) st).2 in
  (∀ k, ld_train_test_init st' !! k
        = if bool_decide (k ∈ recorded (glob_glob pattern)) then Some true else None)
  ∧ ld_stdout st'
    = ld_stdout st ++ [(">>> train-test inited: ", ld_train_test_init st')].
Proof.
  intros Hjoin Hread.
  rewrite (init_reaches_loop dir pattern) by done.
  rewrite bind_run, (load_loop tables) by done. simpl.
  pose proof (loaded_files_spec tables (glob_glob pattern)
    {| ld_self := init_manager; ld_train_test_init := ∅;
       ld_stdout := ld_stdout st; ld_reads := ld_reads st |}) as Hspec.
  simpl in Hspec.
  destruct Hspec as (_ & _ & _ & _ & I5 & _ & I7 & _).
  split; [|by rewrite I7].
  intros k. rewrite I5. by rewrite lookup_empty.
Qed.

Lemma load_file_fails e p st :
  markers_in (file_name_of p) ≠ [] → read_csv p = Raise e →
  load_file read_csv p st
  = (Raise e,
     {| ld_self := ld_self st; ld_train_test_init := ld_train_test_init st;
        ld_stdout := ld_stdout st; ld_reads := ld_reads st ++ [p] |}).
Proof.
  intros Hm Hread. unfold load_file. cbv zeta.
  rewrite markers_in_nil in Hm.
  destruct (py_in "X_train" (file_name_of p)) eqn:H1;
    [by rewrite bind_run, (load_split_fails e)|].
  rewrite bind_run, skip_run. cbv beta iota.
  destruct (py_in "X_test" (file_name_of p)) eqn:H2;
    [by rewrite bind_run, (load_split_fails e)|].
  rewrite bind_run, skip_run. cbv beta iota.
  destruct (py_in "y_train" (file_name_of p)) eqn:H3;
    [by rewrite bind_run, (load_split_fails e)|].
  rewrite bind_run, skip_run. cbv beta iota.
  destruct (py_in "y_test" (file_name_of p)) eqn:H4;
    [by rewrite (load_split_fails e)|].
  by destruct Hm.
Qed.

(** X26: when a marked file does not parse, the constructor raises the
    parser's fault at that file: later files are not opened, the summary
    line is not printed, and the splits hold what the files listed
    before it gave. *)
Theorem init_stops_at_unreadable_file (dir pattern : string) tables pre p post e st :
  os_path_join (Some dir) "*.csv" = Ret pattern →
  glob_glob pattern = pre ++ p :: post →
  readable read_csv tables pre →
  markers_in (file_name_of p) ≠ [] → read_csv p = Raise e →
  ∃ st',
    __init__ glob_glob read_csv (Some dir) st = (Raise e, st')
    ∧ ld_reads st' = ld_reads st ++ opened pre ++ [p]
    ∧ ld_stdout st' = ld_stdout st
    ∧ X_train (ld_self st') = tables <$> last_with "X_train" pre
    ∧ X_test (ld_self st') = tables <$> last_with "X_test" pre
    ∧ y_train (ld_self st') = tables <$> last_with "y_train" pre
    ∧ y_test (ld_self st') = tables <$> last_with "y_test" pre.
Proof.
  intros Hjoin Hglob Hpre Hm Hread. eexists.
  rewrite (init_reaches_loop dir pattern) by done.
  rewrite bind_run, Hglob, for_each_app, (load_loop tables) by done.
  rewrite for_each_cons, bind_run, (load_file_fails e) by done.
  split; [reflexivity|]. simpl.
  pose proof (loaded_files_spec tables pre
    {| ld_self := init_manager; ld_train_test_init := ∅;
       ld_stdout := ld_stdout st; ld_reads := ld_reads st |}) as Hspec.
  simpl in Hspec. unfold pick in Hspec.
  destruct Hspec as (I1 & I2 & I3 & I4 & I5 & I6 & I7 & _).
  rewrite I1, I2, I3, I4, I6, I7, <- app_assoc.
  repeat split; try done; by destruct (last_with _ pre).
Qed.

(** X27: constructed without a directory (the default argument), the
    constructor raises [TypeError] when it joins the path: no instance
    comes out of [NeuralManager()]. *)
Theorem init_without_directory st :
  __init__ glob_glob read_csv None st
  = (Raise TypeError,
     {| ld_self := init_manager; ld_train_test_init := ∅;
        ld_stdout := ld_stdout st; ld_reads := ld_reads st |}).
Proof. reflexivity. Qed.
End loader_facts.

(** * Closed examples for the further properties *)

Lemma unroll_window_too_long_witness :
  _unroll_array_to_sequence (demo_table 3 2) (demo_table 3 1) 3
    (world_of fresh_manager)
  = (Ret (UnrollPair (NdArray [0] []) (NdArray [0] [])), world_of fresh_manager).
Proof.
  apply (unroll_window_too_long (demo_table 3 2) (demo_table 3 1) 3 3
           (world_of fresh_manager)); [reflexivity | reflexivity | lia].
Defined.

Lemma unroll_ignores_last_row_witness :
  _unroll_array_to_sequence (NdArray [3; 2] [0; 1; 2; 3; 7; 7]%Z) (demo_table 3 1) 2
    (world_of fresh_manager)
  = _unroll_array_to_sequence (demo_table 3 2) (demo_table 3 1) 2
      (world_of fresh_manager).
Proof.
  apply (unroll_ignores_last_row (demo_table 3 2) (NdArray [3; 2] [0; 1; 2; 3; 7; 7]%Z)
           (demo_table 3 1) 2 2 [2] (world_of fresh_manager));
    reflexivity.
Defined.

Lemma split_stores_four_batches_witness :
  split_X_to_sequencees 4 (world_of demo_manager)
  = (Ret tt,
     {| self :=
          set_test_unrolled
            (stacked (windows_of (demo_table 20 3) 4 16) [4; 3])
            (stacked (windows_of (demo_table 20 1) 4 16) [4; 1])
            (set_train_unrolled
               (stacked (windows_of (demo_table 20 3) 4 16) [4; 3])
               (stacked (windows_of (demo_table 20 1) 4 16) [4; 1])
               demo_manager);
        stdout := []; calls := []; figures := [] |}).
Proof.
  apply (split_stores_four_batches (demo_table 20 3) (demo_table 20 1)
           (demo_table 20 3) (demo_table 20 1) 20 20 4 [3] [1] [3] [1]
           (world_of demo_manager)); (reflexivity || lia).
Defined.

Lemma split_test_mismatch_keeps_train_witness :
  split_X_to_sequencees 4
    (world_of (set_y_test (Some (demo_table 19 1)) demo_manager))
  = (Raise TypeError,
     {| self :=
          set_train_unrolled
            (stacked (windows_of (demo_table 20 3) 4 16) [4; 3])
            (stacked (windows_of (demo_table 20 1) 4 16) [4; 1])
            (set_y_test (Some (demo_table 19 1)) demo_manager);
        stdout := [">>> X and y data should have same len..."];
        calls := []; figures := [] |}).
Proof.
  apply (split_test_mismatch_keeps_train (demo_table 20 3) (demo_table 20 1)
           (demo_table 20 3) (demo_table 19 1) 20 4 20 19 [3] [1]
           (world_of (set_y_test (Some (demo_table 19 1)) demo_manager)));
    (reflexivity || lia).
Defined.



Lemma model_combine_compile_refused_witness :
  model_combine strict_lib ["LSTM"; "Dense"] true None None true
    (world_of fresh_manager)
  = (Raise (LibraryError "ValueError"),
     {| self := set_model (Some {| layers := ["LSTM"; "Dense"]; compiled := None |})
                  fresh_manager;
        stdout := [];
        calls := [CallSequential; CallAdd "LSTM"; CallAdd "Dense";
                  CallCompile compile_defaults];
        figures := [] |}).
Proof.
  apply (model_combine_compile_refused strict_lib ["LSTM"; "Dense"] true None
           compile_defaults (LibraryError "ValueError") None true
           (world_of fresh_manager)).
  - intros pre l post Heq.
    destruct pre as [|a [|b pre]]; simplify_eq/=;
      [reflexivity | reflexivity | by destruct pre].
  - reflexivity.
  - reflexivity.
Defined.

Lemma normalize_fit_fails_witness :
  normalize_X demo_lib None (world_of fresh_manager)
  = (Raise ValueError,
     {| self := set_scaler (Some {| scaler_class := demo_scaler; fitted := None |})
                  fresh_manager;
        stdout := []; calls := [CallFitTransform None]; figures := [] |}).
Proof.
  apply (normalize_fit_fails demo_lib None ValueError (world_of fresh_manager)).
  reflexivity.
Defined.

Lemma normalize_test_transform_fails_witness :
  normalize_X demo_lib None (world_of (set_X_test None demo_manager))
  = (Raise ValueError,
     {| self := set_X_train_normalized (Some (demo_table 20 3))
                  (set_scaler
                     (Some {| scaler_class := demo_scaler; fitted := Some tt |})
                     (set_X_test None demo_manager));
        stdout := [];
        calls := [CallFitTransform (Some (demo_table 20 3)); CallTransform None];
        figures := [] |}).
Proof.
  apply (normalize_test_transform_fails demo_lib None tt (demo_table 20 3) ValueError
           (world_of (set_X_test None demo_manager))); reflexivity.
Defined.


Lemma fit_reshape_mismatch_witness :
  model_fit demo_lib None (Some 3) None 32 2 true false true demo_windowed
  = (Raise ValueError, demo_windowed).
Proof.
  apply (fit_reshape_mismatch demo_lib
           {| layers := ["LSTM"; "Dense"]; compiled := None |}
           (demo_table 20 3)
           (stacked (windows_of (demo_table 20 3) 4 16) [4; 3])
           (stacked (windows_of (demo_table 20 1) 4 16) [4; 1])
           20 3 16 4 None (Some 3) None 32 2 true false true demo_windowed);
    first [ by vm_compute | simpl; lia ].
Defined.

Lemma fit_without_windows_witness :
  model_fit demo_lib None None None 32 2 true false true (world_of demo_manager)
  = (Raise AttributeError, world_of demo_manager).
Proof.
  apply (fit_without_windows demo_lib
           {| layers := ["LSTM"; "Dense"]; compiled := None |}
           None None None 32 2 true false true (world_of demo_manager)).
  - reflexivity.
  - right. exists (demo_table 20 3), 20, 3.
    split; [reflexivity|]. split; [reflexivity|]. left. reflexivity.
Defined.

Lemma fit_quiet_run_witness :
  model_fit demo_lib None None None 32 2 false true false demo_windowed
  = (Ret FitNone,
     {| self := self demo_windowed; stdout := stdout demo_windowed;
        calls := calls demo_windowed ++ [CallFit demo_fit_args];
        figures := figures demo_windowed |}).
Proof.
  apply (fit_quiet_run demo_lib
           {| layers := ["LSTM"; "Dense"]; compiled := None |}
           (demo_table 20 3)
           (stacked (windows_of (demo_table 20 3) 4 16) [4; 3])
           (stacked (windows_of (demo_table 20 1) 4 16) [4; 1])
           (stacked (windows_of (demo_table 20 3) 4 16) [4; 3])
           (stacked (windows_of (demo_table 20 1) 4 16) [4; 1])
           20 3 16 16 4
           (<["loss" := [3; 2]%Z]> (<["val_loss" := [4; 3]%Z]> ∅))
           None None None 32 2 true demo_windowed);
    by vm_compute.
Defined.

Lemma fit_with_charts_trains_then_raises_witness :
  model_fit demo_lib None None None 32 2 true false true demo_windowed
  = (Raise NameError,
     {| self := self demo_windowed; stdout := stdout demo_windowed;
        calls := calls demo_windowed ++ [CallFit demo_fit_args; CallSubplots];
        figures := figures demo_windowed ++
          [{| ax_lines := [(np_array1 [3; 2]%Z, "train_loss", "o");
                           (np_array1 [4; 3]%Z, "test_loss", "o")];
              ax_legend_loc := Some 3%Z;
              ax_spine_right_visible := false; ax_spine_top_visible := false;
              ax_grid := Some (true, "0.90"); ax_texts := []; ax_ylim := None;
              ax_title := None; ax_xlabel := None; ax_ylabel := None |}] |}).
Proof.
  apply (fit_with_charts_trains_then_raises demo_lib
           {| layers := ["LSTM"; "Dense"]; compiled := None |}
           (demo_table 20 3)
           (stacked (windows_of (demo_table 20 3) 4 16) [4; 3])
           (stacked (windows_of (demo_table 20 1) 4 16) [4; 1])
           (stacked (windows_of (demo_table 20 3) 4 16) [4; 3])
           (stacked (windows_of (demo_table 20 1) 4 16) [4; 1])
           20 3 16 16 4
           (<["loss" := [3; 2]%Z]> (<["val_loss" := [4; 3]%Z]> ∅))
           [3; 2]%Z [4; 3]%Z
           None None None 32 2 true demo_windowed);
    by vm_compute.
Defined.

Lemma label_series_annotates_witness :
  _plt_label_Series demo_lib (Some 0) (PSeries (np_array1 [4; 3]%Z)) (PNum 1%Z)
    {| self := fresh_manager; stdout := []; calls := []; figures := [new_axes] |}
  = (Ret tt,
     {| self := fresh_manager; stdout := []; calls := [];
        figures :=
          alter (add_texts (annotations demo_lib 0 [4; 3]%Z 1%Z)) 0 [new_axes] |}).
Proof.
  apply (label_series_annotates demo_lib 0 (np_array1 [4; 3]%Z) 2 1%Z
           {| self := fresh_manager; stdout := []; calls := [];
              figures := [new_axes] |}).
  reflexivity.
Defined.

Lemma file_name_of_path_witness :
  file_name_of "data/v1.0/X_train.cut.csv" = "X_train"
  ∧ file_name_of "X_train.cut.csv" = "X_train"
  ∧ file_name_of "X_train" = "X_train".
Proof.
  apply (file_name_of_path "data/v1.0" "X_train" "cut.csv"); reflexivity.
Defined.

Lemma label_series_edges_witness :
  let w := {| self := fresh_manager; stdout := []; calls := [];
              figures := [@new_axes Z] |} in
  (nd_data (np_array1 [4; 3]%Z) = [] →
   ∀ ax shift,
     _plt_label_Series demo_lib ax (PSeries (np_array1 [4; 3]%Z)) shift w
     = (Ret tt, w))
  ∧ (nd_data (np_array1 [4; 3]%Z) ≠ [] →
     ∀ r shift, shift = PNone ∨ (∃ s, shift = PStr s) →
       _plt_label_Series demo_lib (Some r) (PSeries (np_array1 [4; 3]%Z)) shift w
       = (Raise TypeError, w))
  ∧ (nd_data (np_array1 [4; 3]%Z) ≠ [] →
     ∀ sh, _plt_label_Series demo_lib None (PSeries (np_array1 [4; 3]%Z)) (PNum sh) w
           = (Raise AttributeError, w)).
Proof.
  intros w.
  apply (label_series_edges demo_lib (np_array1 [4; 3]%Z) 2 w). reflexivity.
Defined.

Lemma demo_clean_readable :
  readable demo_read_csv demo_tables (demo_glob "clean/*.csv").
Proof.
  intros p Hp _. change (demo_glob "clean/*.csv")
    with ["clean/X_train_old.csv"; "clean/notes.csv"; "clean/y_test.csv";
          "clean/X_train.csv"] in Hp.
  repeat (apply elem_of_cons in Hp as [->|Hp]; [reflexivity|]).
  by apply elem_of_nil in Hp.
Defined.

Lemma init_loads_last_match_witness :
  let paths := demo_glob "clean/*.csv" in
  ∃ st',
    __init__ demo_glob demo_read_csv (Some "clean") fresh_loader_state = (Ret tt, st')
    ∧ X_train (ld_self st') = demo_tables <$> last_with "X_train" paths
    ∧ X_test (ld_self st') = demo_tables <$> last_with "X_test" paths
    ∧ y_train (ld_self st') = demo_tables <$> last_with "y_train" paths
    ∧ y_test (ld_self st') = demo_tables <$> last_with "y_test" paths
    ∧ ld_reads st' = ld_reads fresh_loader_state ++ opened paths
    ∧ X_train_normalized (ld_self st') = None
    ∧ X_test_normalized (ld_self st') = None
    ∧ X_train_unrolled (ld_self st') = None
    ∧ X_test_unrolled (ld_self st') = None
    ∧ y_train_unrolled (ld_self st') = None
    ∧ y_test_unrolled (ld_self st') = None
    ∧ model (ld_self st') = None ∧ scaler (ld_self st') = None.
Proof.
  apply (init_loads_last_match demo_glob demo_read_csv "clean" "clean/*.csv"
           demo_tables fresh_loader_state);
    [reflexivity | exact demo_clean_readable].
Defined.

Lemma init_records_file_names_witness :
  let st' := (__init__ demo_glob demo_read_csv (Some "clean") fresh_loader_state).2 in
  (∀ k, ld_train_test_init st' !! k
        = if bool_decide (k ∈ recorded (demo_glob "clean/*.csv"))
          then Some true else None)
  ∧ ld_stdout st'
    = ld_stdout fresh_loader_state
      ++ [(">>> train-test inited: ", ld_train_test_init st')].
Proof.
  apply (init_records_file_names demo_glob demo_read_csv "clean" "clean/*.csv"
           demo_tables fresh_loader_state);
    [reflexivity | exact demo_clean_readable].
Defined.

Lemma demo_data_prefix_readable :
  readable demo_read_csv demo_tables
    ["data/X_train.csv"; "data/notes.csv"; "data/y_test.csv"].
Proof.
  intros p Hp _.
  repeat (apply elem_of_cons in Hp as [->|Hp]; [reflexivity|]).
  by apply elem_of_nil in Hp.
Defined.

Lemma init_stops_at_unreadable_file_witness :
  let pre := ["data/X_train.csv"; "data/notes.csv"; "data/y_test.csv"] in
  ∃ st',
    __init__ demo_glob demo_read_csv (Some "data") fresh_loader_state
    = (Raise (LibraryError "ParserError"), st')
    ∧ ld_reads st' = ld_reads fresh_loader_state ++ opened pre
                       ++ ["data/y_test_broken.csv"]
    ∧ ld_stdout st' = ld_stdout fresh_loader_state
    ∧ X_train (ld_self st') = demo_tables <$> last_with "X_train" pre
    ∧ X_test (ld_self st') = demo_tables <$> last_with "X_test" pre
    ∧ y_train (ld_self st') = demo_tables <$> last_with "y_train" pre
    ∧ y_test (ld_self st') = demo_tables <$> last_with "y_test" pre.
Proof.
  apply (init_stops_at_unreadable_file demo_glob demo_read_csv "data" "data/*.csv"
           demo_tables
           ["data/X_train.csv"; "data/notes.csv"; "data/y_test.csv"]
           "data/y_test_broken.csv" [] (LibraryError "ParserError")
           fresh_loader_state);
    [reflexivity | reflexivity | exact demo_data_prefix_readable
    | by vm_compute | reflexivity].
Defined.
